(** * mcp-openai: the rate-limited, retrying OpenAI client

    A shallow embedding of [src/client.ts] (class [OpenAIClient]) and of the
    credential check of [src/index.ts] ([createServer]), followed by the
    properties of the dispatcher that the specification states.

    Conventions of the embedding.
    - JavaScript numbers that the code computes with (timestamps, delays,
      the parsed [retry-after] value) are integers and are modelled in [Z];
      [NaN], the one non-integer that [parseInt] can return, is explicit.
      Numbers that the code only forwards (temperature, speed, ...) are
      IEEE-754 doubles, Rocq's primitive [float].
    - A [Record<string, unknown>] request body is a [gmap string JsValue];
      an optional argument ([x?: T]) is an [option], [None] being
      [undefined].
    - [async] code is a program over the effects the class performs
      ([Date.now], [setTimeout], the [lastRequestTime] field, one axios
      call); programs are run against a virtual clock, either one call at a
      time ([run]) or interleaved at their [await] points by an event loop
      ([event_loop]). *)

From Stdlib Require Import ZArith NArith Lia Bool List Ascii String.
From Stdlib Require Import Strings.Byte Floats.PrimFloat.
From stdpp Require Import base option list strings gmap.

#[local] Set Warnings "-register-all,-inexact-float,-clear-no-such-hyp".
#[local] Open Scope Z_scope.

(* ===================================================================== *)
(** ** JavaScript values *)
(* ===================================================================== *)

(** JSON-like values carried by request bodies and responses ([unknown] in
    the TypeScript source).  Objects keep their fields in insertion order. *)
Inductive JsValue : Type :=
| JNull
| JBool (b : bool)
| JNum (x : float)
| JStr (s : string)
| JArr (items : list JsValue)
| JObj (fields : list (string * JsValue)).

(** The result of [parseInt]: an integer or [NaN]. *)
Inductive JsNumber : Type :=
| NaN
| Int (z : Z).

(** [x || d] on numbers: [NaN], [+0] and [-0] are falsy. *)
Definition number_or (x : JsNumber) (d : Z) : Z :=
  match x with
  | NaN => d
  | Int z => if z =? 0 then d else z
  end.

(** [x || d] on an optional string: [undefined] and the empty string are
    falsy. *)
Definition string_or (x : option string) (d : string) : string :=
  match x with
  | Some (String c s) => String c s
  | Some EmptyString | None => d
  end.

(** [!x] on an optional string. *)
Definition falsy (x : option string) : bool :=
  match x with
  | Some (String _ _) => false
  | Some EmptyString | None => true
  end.

(* ===================================================================== *)
(** ** [parseInt(s, 10)] *)
(* ===================================================================== *)

Module ParseInt.

(** [StrWhiteSpaceChar] restricted to the Latin-1 code units an HTTP
    header value can hold: TAB, LF, VT, FF, CR, SP and NBSP. *)
Definition is_white_space (c : ascii) : bool :=
  let n := N_of_ascii c in
  ((9 <=? n) && (n <=? 13) || (n =? 32) || (n =? 160))%N.

Definition digit_value (c : ascii) : option Z :=
  let n := Z.of_N (N_of_ascii c) in
  if (48 <=? n) && (n <=? 57) then Some (n - 48) else None.

Fixpoint trim_start (s : string) : string :=
  match s with
  | String c rest => if is_white_space c then trim_start rest else s
  | EmptyString => s
  end.

(** The longest prefix of radix-10 digits, most significant first. *)
Fixpoint leading_digits (s : string) : list Z :=
  match s with
  | String c rest =>
      match digit_value c with
      | Some d => d :: leading_digits rest
      | None => []
      end
  | EmptyString => []
  end.

Definition digits_value (ds : list Z) : Z :=
  fold_left (fun acc d => 10 * acc + d) ds 0.

(** ECMAScript [parseInt(string, 10)].  The argument is first converted
    with [ToString], so [undefined] is read as the text "undefined".  The
    value is exact here; JavaScript rounds integers above 2^53 to the
    nearest double, a difference no timer shows, since every delay above
    2^31-1 ms is run as 1 ms. *)
Definition parseInt (input : option string) : JsNumber :=
  let inputString := default "undefined"%string input in
  let trimmed := trim_start inputString in
  let '(sign, unsigned) :=
    match trimmed with
    | String "-"%char rest => (-1, rest)
    | String "+"%char rest => (1, rest)
    | _ => (1, trimmed)
    end in
  match leading_digits unsigned with
  | [] => NaN
  | ds => Int (sign * digits_value ds)
  end.

End ParseInt.

(* ===================================================================== *)
(** ** Base64, as [Buffer.prototype.toString("base64")] writes it *)
(* ===================================================================== *)

Module Base64.

#[local] Open Scope N_scope.

Definition alphabet : string :=
  "ABCDEFGHIJKLMNOPQRSTUVWXYZabcdefghijklmnopqrstuvwxyz0123456789+/".

Definition pad : ascii := "="%char.

Definition sextet_char (n : N) : ascii :=
  default pad (String.get (N.to_nat n) alphabet).

Fixpoint index_of (c : ascii) (s : string) : option N :=
  match s with
  | String d rest =>
      if Ascii.eqb c d then Some 0 else N.succ <$> index_of c rest
  | EmptyString => None
  end.

Definition char_sextet (c : ascii) : option N := index_of c alphabet.

(** Three bytes give four characters; one or two trailing bytes give two
    or three characters followed by padding. *)
Fixpoint encode (bytes : list byte) : string :=
  match bytes with
  | [] => EmptyString
  | [a] =>
      let n := Byte.to_N a * 16 in
      String (sextet_char (n / 64)) (String (sextet_char (n mod 64))
        (String pad (String pad EmptyString)))
  | [a; b] =>
      let n := (Byte.to_N a * 256 + Byte.to_N b) * 4 in
      String (sextet_char (n / 4096)) (String (sextet_char (n / 64 mod 64))
        (String (sextet_char (n mod 64)) (String pad EmptyString)))
  | a :: b :: c :: rest =>
      let n := Byte.to_N a * 65536 + Byte.to_N b * 256 + Byte.to_N c in
      String (sextet_char (n / 262144))
        (String (sextet_char (n / 4096 mod 64))
          (String (sextet_char (n / 64 mod 64))
            (String (sextet_char (n mod 64)) (encode rest))))
  end.

(** The bytes of one group of four characters. *)
Definition decode_group (c1 c2 c3 c4 : ascii) : option (list byte) :=
  s1 ← char_sextet c1;
  s2 ← char_sextet c2;
  if Ascii.eqb c3 pad && Ascii.eqb c4 pad then
    a ← Byte.of_N ((s1 * 64 + s2) / 16);
    Some [a]
  else
    s3 ← char_sextet c3;
    if Ascii.eqb c4 pad then
      let n := ((s1 * 64 + s2) * 64 + s3) / 4 in
      a ← Byte.of_N (n / 256);
      b ← Byte.of_N (n mod 256);
      Some [a; b]
    else
      s4 ← char_sextet c4;
      let n := ((s1 * 64 + s2) * 64 + s3) * 64 + s4 in
      a ← Byte.of_N (n / 65536);
      b ← Byte.of_N (n / 256 mod 256);
      c ← Byte.of_N (n mod 256);
      Some [a; b; c].

(** RFC 4648 decoding: groups of four characters, padding only in the
    last group. *)
Fixpoint decode (s : string) : option (list byte) :=
  match s with
  | EmptyString => Some []
  | String c1 (String c2 (String c3 (String c4 rest))) =>
      group ← decode_group c1 c2 c3 c4;
      match rest with
      | EmptyString => Some group
      | _ =>
          if Nat.eqb (List.length group) 3
          then tail ← decode rest; Some (group ++ tail)
          else None
      end
  | _ => None
  end.

End Base64.

(* ===================================================================== *)
(** ** HTTP through axios *)
(* ===================================================================== *)

Inductive Method : Type := GET | POST.

(** The [responseType] of an axios request configuration. *)
Inductive ResponseType : Type := RtJson | RtArrayBuffer.

(** What can be handed to axios as request data. *)
Inductive RequestData : Type :=
| NoData
| JsonObject (body : gmap string JsValue)
| FormData (parts : list (string * list byte)).

Record HttpRequest : Type := mkRequest {
  req_method : Method;
  req_baseURL : string;
  req_url : string;
  req_headers : gmap string string;
  req_data : RequestData;
  req_responseType : ResponseType
}.

Inductive ResponseData : Type :=
| JsonData (value : JsValue)
| BinaryData (bytes : list byte).

Record Response : Type := mkResponse {
  status : Z;
  headers : gmap string string;
  data : ResponseData
}.

(** Thrown values: an [AxiosError] (with the response when the server
    answered, without it on a network failure) or any other [Error]. *)
Inductive JsError : Type :=
| AxiosError (response : option Response)
| Error (message : string).

(** How a promise settles. *)
Inductive Outcome (A : Type) : Type :=
| Fulfilled (value : A)
| Rejected (error : JsError).
Arguments Fulfilled {A} value.
Arguments Rejected {A} error.

Definition isAxiosError (error : JsError) : bool :=
  match error with
  | AxiosError _ => true
  | Error _ => false
  end.

(** [error.response?.status] *)
Definition response_status (error : JsError) : option Z :=
  match error with
  | AxiosError (Some response) => Some (status response)
  | _ => None
  end.

(** [error.response.headers[name]] *)
Definition response_header (error : JsError) (name : string) : option string :=
  match error with
  | AxiosError (Some response) => headers response !! name
  | _ => None
  end.

(** The remote side: what it answers to the [n]-th request it receives
    ([None]: no answer, a network failure) and after how many milliseconds. *)
Record Reply : Type := mkReply {
  latency : N;
  answer : option Response
}.

Definition Server : Type := nat -> HttpRequest -> Reply.

(** axios' default [validateStatus]: 2xx fulfils, anything else rejects
    with an [AxiosError] carrying the response. *)
Definition settle (r : Reply) : Outcome Response :=
  match answer r with
  | Some response =>
      if (200 <=? status response) && (status response <? 300)
      then Fulfilled response
      else Rejected (AxiosError (Some response))
  | None => Rejected (AxiosError None)
  end.

(* ===================================================================== *)
(** ** Asynchronous programs *)
(* ===================================================================== *)

(** The effects of [OpenAIClient]: reading the clock, the private field
    [lastRequestTime], awaiting a timer and awaiting one axios call. *)
Inductive Prog (A : Type) : Type :=
| Return (value : A)
| Throw (error : JsError)
| DateNow (k : Z -> Prog A)
| GetLastRequestTime (k : Z -> Prog A)
| SetLastRequestTime (t : Z) (k : Prog A)
| SetTimeout (ms : Z) (k : Prog A)
| AxiosCall (req : HttpRequest) (k : Outcome Response -> Prog A).
Arguments Return {A} value.
Arguments Throw {A} error.
Arguments DateNow {A} k.
Arguments GetLastRequestTime {A} k.
Arguments SetLastRequestTime {A} t k.
Arguments SetTimeout {A} ms k.
Arguments AxiosCall {A} req k.

Fixpoint prog_bind {A B} (f : A -> Prog B) (p : Prog A) : Prog B :=
  match p with
  | Return a => f a
  | Throw e => Throw e
  | DateNow k => DateNow (fun t => prog_bind f (k t))
  | GetLastRequestTime k => GetLastRequestTime (fun t => prog_bind f (k t))
  | SetLastRequestTime t k => SetLastRequestTime t (prog_bind f k)
  | SetTimeout ms k => SetTimeout ms (prog_bind f k)
  | AxiosCall req k => AxiosCall req (fun o => prog_bind f (k o))
  end.

#[global] Instance prog_mret : MRet Prog := @Return.
#[global] Instance prog_mbind : MBind Prog := @prog_bind.

(** [try { p } catch (error) { handler(error) }] *)
Fixpoint try_catch {A} (p : Prog A) (handler : JsError -> Prog A) : Prog A :=
  match p with
  | Return a => Return a
  | Throw e => handler e
  | DateNow k => DateNow (fun t => try_catch (k t) handler)
  | GetLastRequestTime k =>
      GetLastRequestTime (fun t => try_catch (k t) handler)
  | SetLastRequestTime t k => SetLastRequestTime t (try_catch k handler)
  | SetTimeout ms k => SetTimeout ms (try_catch k handler)
  | AxiosCall req k => AxiosCall req (fun o => try_catch (k o) handler)
  end.

(** [Date.now()] *)
Definition Date_now : Prog Z := DateNow Return.

(** [await new Promise((resolve) => setTimeout(resolve, ms))] *)
Definition sleep (ms : Z) : Prog unit := SetTimeout ms (Return tt).

(** [await axios(req)] *)
Definition await_axios (req : HttpRequest) : Prog Response :=
  AxiosCall req (fun o =>
    match o with
    | Fulfilled response => Return response
    | Rejected error => Throw error
    end).

(* ===================================================================== *)
(** ** The virtual machine: clock, field and event log *)
(* ===================================================================== *)

(** What the outside can observe of one client: the timers it awaited and
    the requests it issued, each with the time it happened. *)
Inductive Event : Type :=
| Timer (at_time : Z) (ms : Z)
| Request (at_time : Z) (req : HttpRequest).

(** The state of one [OpenAIClient] instance and its surroundings: the
    clock [Date.now()] reads (milliseconds), the instance's private field,
    and the log.  Time passes only while a program awaits: a timer takes
    exactly its delay and a request exactly the latency of its reply;
    computing takes no time. *)
Record World : Type := mkWorld {
  clock : Z;
  lastRequestTime : Z;
  log : list Event    (* newest first *)
}.

(** Node's [setTimeout]: a delay below 1 or above 2^31-1 is set to 1. *)
Definition TIMEOUT_MAX : Z := 2147483647.

Definition timer_delay (ms : Z) : Z :=
  if (1 <=? ms) && (ms <=? TIMEOUT_MAX) then ms else 1.

(** The requests sent so far, oldest first, with their issue times. *)
Definition requests (w : World) : list (Z * HttpRequest) :=
  rev (omap (fun e => match e with
                      | Request t req => Some (t, req)
                      | Timer _ _ => None
                      end) (log w)).

Definition issue_times (w : World) : list Z := (requests w).*1.

Definition attempts (w : World) : nat := List.length (requests w).

(** The timers awaited so far, oldest first, with the delay asked for. *)
Definition timers (w : World) : list (Z * Z) :=
  rev (omap (fun e => match e with
                      | Timer t ms => Some (t, ms)
                      | Request _ _ => None
                      end) (log w)).

Definition after_timer (ms : Z) (w : World) : World :=
  {| clock := clock w + timer_delay ms;
     lastRequestTime := lastRequestTime w;
     log := Timer (clock w) ms :: log w |}.

Definition after_request (req : HttpRequest) (r : Reply) (w : World) : World :=
  {| clock := clock w + Z.of_N (latency r);
     lastRequestTime := lastRequestTime w;
     log := Request (clock w) req :: log w |}.

Definition set_lastRequestTime (t : Z) (w : World) : World :=
  {| clock := clock w; lastRequestTime := t; log := log w |}.

(** One call run to completion with nothing else in between. *)
Fixpoint run {A} (server : Server) (p : Prog A) (w : World)
  : Outcome A * World :=
  match p with
  | Return a => (Fulfilled a, w)
  | Throw e => (Rejected e, w)
  | DateNow k => run server (k (clock w)) w
  | GetLastRequestTime k => run server (k (lastRequestTime w)) w
  | SetLastRequestTime t k => run server k (set_lastRequestTime t w)
  | SetTimeout ms k => run server k (after_timer ms w)
  | AxiosCall req k =>
      let r := server (attempts w) req in
      run server (k (settle r)) (after_request req r w)
  end.

(** Calls made one after the other: each is awaited before the next one
    starts, [idle] milliseconds after the previous one settled. *)
Fixpoint run_all {A} (server : Server) (calls : list (N * Prog A)) (w : World)
  : list (Outcome A) * World :=
  match calls with
  | [] => ([], w)
  | (idle, p) :: rest =>
      let w0 := {| clock := clock w + Z.of_N idle;
                   lastRequestTime := lastRequestTime w;
                   log := log w |} in
      let '(o, w1) := run server p w0 in
      let '(os, w2) := run_all server rest w1 in
      (o :: os, w2)
  end.

(** *** The event loop

    Calls that overlap.  A task runs until it awaits a timer or an axios
    call; when no task can run, the clock moves to the earliest pending
    timer or reply and the task awaiting it continues. *)
Inductive Task (A : Type) : Type :=
| Ready (p : Prog A)
| OnTimer (due : Z) (k : Prog A)
| OnAxios (due : Z) (o : Outcome Response) (k : Outcome Response -> Prog A)
| Settled (o : Outcome A).
Arguments Ready {A} p.
Arguments OnTimer {A} due k.
Arguments OnAxios {A} due o k.
Arguments Settled {A} o.

Fixpoint advance {A} (server : Server) (p : Prog A) (w : World)
  : Task A * World :=
  match p with
  | Return a => (Settled (Fulfilled a), w)
  | Throw e => (Settled (Rejected e), w)
  | DateNow k => advance server (k (clock w)) w
  | GetLastRequestTime k => advance server (k (lastRequestTime w)) w
  | SetLastRequestTime t k => advance server k (set_lastRequestTime t w)
  | SetTimeout ms k =>
      (OnTimer (clock w + timer_delay ms) k,
       {| clock := clock w; lastRequestTime := lastRequestTime w;
          log := Timer (clock w) ms :: log w |})
  | AxiosCall req k =>
      let r := server (attempts w) req in
      (OnAxios (clock w + Z.of_N (latency r)) (settle r) k,
       {| clock := clock w; lastRequestTime := lastRequestTime w;
          log := Request (clock w) req :: log w |})
  end.

Fixpoint first_ready {A} (tasks : list (Task A)) : option (nat * Prog A) :=
  match tasks with
  | [] => None
  | Ready p :: _ => Some (O, p)
  | _ :: rest => prod_map S id <$> first_ready rest
  end.

Definition due_time {A} (t : Task A) : option Z :=
  match t with
  | OnTimer due _ | OnAxios due _ _ => Some due
  | Ready _ | Settled _ => None
  end.

(** The first task among those whose timer or reply is due earliest. *)
Fixpoint earliest {A} (tasks : list (Task A)) : option (nat * Z) :=
  match tasks with
  | [] => None
  | t :: rest =>
      match due_time t, prod_map S id <$> earliest rest with
      | Some d, Some (j, d') => if d <=? d' then Some (O, d) else Some (j, d')
      | Some d, None => Some (O, d)
      | None, later => later
      end
  end.

Definition resume {A} (t : Task A) : Task A :=
  match t with
  | OnTimer _ k => Ready k
  | OnAxios _ o k => Ready (k o)
  | Ready _ | Settled _ => t
  end.

Fixpoint event_loop {A} (fuel : nat) (server : Server)
    (tasks : list (Task A)) (w : World) : list (Task A) * World :=
  match fuel with
  | O => (tasks, w)
  | S fuel' =>
      match first_ready tasks with
      | Some (i, p) =>
          let '(t, w') := advance server p w in
          event_loop fuel' server (<[i := t]> tasks) w'
      | None =>
          match earliest tasks with
          | Some (i, d) =>
              event_loop fuel' server (alter resume i tasks)
                {| clock := Z.max (clock w) d;
                   lastRequestTime := lastRequestTime w;
                   log := log w |}
          | None => (tasks, w)
          end
      end
  end.

(* ===================================================================== *)
(** ** [src/client.ts] *)
(* ===================================================================== *)

Definition BASE_URL : string := "https://api.openai.com/v1".
Definition RATE_LIMIT_DELAY : Z := 100.

(** The instance [axios.create] returns. *)
Record AxiosInstance : Type := mkAxios {
  baseURL : string;
  default_headers : gmap string string
}.

(** The request [instance.post(url, body, { responseType })] makes. *)
Definition post_request (instance : AxiosInstance) (url : string)
    (body : gmap string JsValue) (responseType : ResponseType)
  : HttpRequest :=
  {| req_method := POST;
     req_baseURL := baseURL instance;
     req_url := url;
     req_headers := default_headers instance;
     req_data := JsonObject body;
     req_responseType := responseType |}.

(** The request [instance.get(url)] makes. *)
Definition get_request (instance : AxiosInstance) (url : string)
  : HttpRequest :=
  {| req_method := GET;
     req_baseURL := baseURL instance;
     req_url := url;
     req_headers := default_headers instance;
     req_data := NoData;
     req_responseType := RtJson |}.

(** [await instance.post(url, body, { responseType })] *)
Definition axios_post (instance : AxiosInstance) (url : string)
    (body : gmap string JsValue) (responseType : ResponseType)
  : Prog Response :=
  await_axios (post_request instance url body responseType).

(** [await instance.get(url)] *)
Definition axios_get (instance : AxiosInstance) (url : string)
  : Prog Response :=
  await_axios (get_request instance url).

(** The immutable part of an [OpenAIClient]; the mutable field
    [lastRequestTime] lives in the [World]. *)
Record OpenAIClient : Type := mkClient {
  client : AxiosInstance
}.

(** [process.env] *)
Abbreviation Env := (gmap string string).

Definition missing_key_error : JsError :=
  Error "OPENAI_API_KEY environment variable is required".

(** [constructor(apiKey?: string)] *)
Definition new_OpenAIClient (apiKey : option string) (env : Env)
  : Outcome OpenAIClient :=
  let key :=
    if falsy apiKey then env !! "OPENAI_API_KEY"%string else apiKey in
  if falsy key then Rejected missing_key_error
  else
    let bearer := ("Bearer " ++ default EmptyString key)%string in
    Fulfilled {| client := {|
      baseURL := BASE_URL;
      default_headers :=
        {[ "Authorization"%string := bearer;
           "Content-Type"%string := "application/json"%string ]} |} |}.

(** [private async rateLimit()] *)
Definition rateLimit : Prog unit :=
  now ← Date_now;
  last ← GetLastRequestTime Return;
  let timeSinceLastRequest := now - last in
  (if timeSinceLastRequest <? RATE_LIMIT_DELAY
   then sleep (RATE_LIMIT_DELAY - timeSinceLastRequest)
   else Return tt) ;;
  now' ← Date_now;
  SetLastRequestTime now' (Return tt).

(** The wait before a retry, in milliseconds:
    [(parseInt(headers["retry-after"], 10) || 1) * 1000]. *)
Definition retry_delay (error : JsError) : Z :=
  let retryAfter :=
    number_or (ParseInt.parseInt (response_header error "retry-after")) 1 in
  retryAfter * 1000.

(** [private async handleRequest<T>(request, retries = 3)] *)
Fixpoint handleRequest {T} (request : Prog T) (retries : nat) : Prog T :=
  rateLimit ;;
  try_catch request (fun error =>
    if isAxiosError error then
      if bool_decide (response_status error = Some 429) && (0 <? retries)%nat
      then
        match retries with
        | S retries_minus_1 =>
            sleep (retry_delay error) ;;
            handleRequest request retries_minus_1
        | O => Throw error
        end
      else Throw error
    else Throw error).

(** The default of [retries = 3]. *)
Definition default_retries : nat := 3.

(** [if (x !== undefined) body.key = x] *)
Definition assign_if_defined (key : string) (x : option JsValue)
    (body : gmap string JsValue) : gmap string JsValue :=
  match x with
  | Some v => <[key := v]> body
  | None => body
  end.

Section Operations.

Variable this : OpenAIClient.

#[local] Open Scope string_scope.

(** [async chatCompletion(model, messages, temperature?, maxTokens?, topP?,
    tools?, toolChoice?)] *)
Definition chatCompletion (model : string) (messages : list JsValue)
    (temperature maxTokens topP : option float)
    (tools : option (list JsValue)) (toolChoice : option JsValue)
  : Prog ResponseData :=
  handleRequest (
    let body : gmap string JsValue :=
      {[ "model" := JStr model; "messages" := JArr messages ]} in
    let body := assign_if_defined "temperature" (JNum <$> temperature) body in
    let body := assign_if_defined "max_tokens" (JNum <$> maxTokens) body in
    let body := assign_if_defined "top_p" (JNum <$> topP) body in
    let body := assign_if_defined "tools" (JArr <$> tools) body in
    let body := assign_if_defined "tool_choice" toolChoice body in
    response ← axios_post (client this) "/chat/completions" body RtJson;
    Return (data response)) default_retries.

(** [input: string | string[]] *)
Definition embedding_input (input : string + list string) : JsValue :=
  match input with
  | inl text => JStr text
  | inr texts => JArr (JStr <$> texts)
  end.

(** [async createEmbedding(model, input, dimensions?)] *)
Definition createEmbedding (model : string) (input : string + list string)
    (dimensions : option float) : Prog ResponseData :=
  handleRequest (
    let body : gmap string JsValue :=
      {[ "model" := JStr model; "input" := embedding_input input ]} in
    let body := assign_if_defined "dimensions" (JNum <$> dimensions) body in
    response ← axios_post (client this) "/embeddings" body RtJson;
    Return (data response)) default_retries.

(** [async listModels()] *)
Definition listModels : Prog ResponseData :=
  handleRequest (
    response ← axios_get (client this) "/models";
    Return (data response)) default_retries.

(** [async getModel(modelId)] *)
Definition getModel (modelId : string) : Prog ResponseData :=
  handleRequest (
    response ← axios_get (client this) ("/models/" ++ modelId);
    Return (data response)) default_retries.

(** [async createImage(prompt, model?, size?, quality?, n?)] *)
Definition createImage (prompt : string) (model size quality : option string)
    (n : option float) : Prog ResponseData :=
  handleRequest (
    let body : gmap string JsValue :=
      {[ "prompt" := JStr prompt;
         "model" := JStr (string_or model "dall-e-3") ]} in
    let body := assign_if_defined "size" (JStr <$> size) body in
    let body := assign_if_defined "quality" (JStr <$> quality) body in
    let body := assign_if_defined "n" (JNum <$> n) body in
    response ← axios_post (client this) "/images/generations" body RtJson;
    Return (data response)) default_retries.

(** [SpeechResponse] *)
Record SpeechResponse : Type := mkSpeech { audio_base64 : string }.

(** [Buffer.from(data)] for the [ArrayBuffer] that axios delivers when
    [responseType] is ["arraybuffer"]; any other value is refused. *)
Definition Buffer_from (d : ResponseData) : Prog (list byte) :=
  match d with
  | BinaryData bytes => Return bytes
  | JsonData _ => Throw (Error "TypeError")
  end.

(** [async createSpeech(model, input, voice, responseFormat?, speed?)] *)
Definition createSpeech (model input voice : string)
    (responseFormat : option string) (speed : option float)
  : Prog SpeechResponse :=
  handleRequest (
    let body : gmap string JsValue :=
      {[ "model" := JStr model; "input" := JStr input;
         "voice" := JStr voice ]} in
    let body :=
      assign_if_defined "response_format" (JStr <$> responseFormat) body in
    let body := assign_if_defined "speed" (JNum <$> speed) body in
    response ← axios_post (client this) "/audio/speech" body RtArrayBuffer;
    buffer ← Buffer_from (data response);
    let base64 := Base64.encode buffer in
    Return {| audio_base64 := base64 |}) default_retries.

(** [async createTranscription(model, fileUrl, language?, responseFormat?)] *)
Definition createTranscription (model fileUrl : string)
    (language responseFormat : option string) : Prog ResponseData :=
  handleRequest (
    let body : gmap string JsValue :=
      {[ "model" := JStr model; "file" := JStr fileUrl ]} in
    let body := assign_if_defined "language" (JStr <$> language) body in
    let body :=
      assign_if_defined "response_format" (JStr <$> responseFormat) body in
    response ← axios_post (client this) "/audio/transcriptions" body RtJson;
    Return (data response)) default_retries.

(** [async moderateContent(input, model?)] *)
Definition moderateContent (input : string) (model : option string)
  : Prog ResponseData :=
  handleRequest (
    let body : gmap string JsValue := {[ "input" := JStr input ]} in
    let body := assign_if_defined "model" (JStr <$> model) body in
    response ← axios_post (client this) "/moderations" body RtJson;
    Return (data response)) default_retries.

End Operations.

(* ===================================================================== *)
(** ** [src/tools.ts] and [src/index.ts]: where the client is made *)
(* ===================================================================== *)

(** [getClient().operation(...)] inside a tool handler: the client of
    [registerTools(server, apiKey)] is built on first use. *)
Definition with_client {T} (apiKey : option string) (env : Env)
    (operation : OpenAIClient -> Prog T) : Prog T :=
  match new_OpenAIClient apiKey env with
  | Fulfilled c => operation c
  | Rejected e => Throw e
  end.

Record McpServer : Type := mkServer {
  server_name : string;
  server_version : string;
  server_apiKey : option string   (* captured by [registerTools] *)
}.

(** [function createServer()] *)
Definition createServer (env : Env) : Outcome McpServer :=
  let apiKey := env !! "OPENAI_API_KEY"%string in
  if falsy apiKey then Rejected missing_key_error
  else Fulfilled {| server_name := "openai-mcp-server";
                    server_version := "0.1.0";
                    server_apiKey := apiKey |}.

(** [export function createSandboxServer()]:
    [process.env.OPENAI_API_KEY ??= "sandbox-api-key"] and then
    [createServer()]. *)
Definition createSandboxServer (env : Env) : Outcome McpServer * Env :=
  let env' :=
    match env !! "OPENAI_API_KEY"%string with
    | Some _ => env
    | None => <["OPENAI_API_KEY"%string := "sandbox-api-key"%string]> env
    end in
  (createServer env', env').

(* ===================================================================== *)
(** ** [src/tools.ts]: the tool handlers *)
(* ===================================================================== *)

(** [{ type: "text", text }] *)
Inductive ContentItem : Type := TextContent (text : string).

(** What a handler returns: [{ content }] on success and
    [{ content, isError: true }] from [errorResult]. *)
Record ToolResult : Type := mkToolResult {
  content : list ContentItem;
  isError : option bool
}.

(** One invocation of a registered tool, with the arguments its schema
    let through. *)
Inductive ToolCall : Type :=
| openai_chat_completion (model : string) (messages : list JsValue)
    (temperature maxTokens topP : option float)
    (tools : option (list JsValue)) (toolChoice : option JsValue)
| openai_create_embedding (model : string) (input : string + list string)
    (dimensions : option float)
| openai_list_models
| openai_get_model (modelId : string)
| openai_create_image (prompt : string) (model size quality : option string)
    (n : option float)
| openai_create_speech (model input voice : string)
    (responseFormat : option string) (speed : option float)
| openai_create_transcription (model fileUrl : string)
    (language responseFormat : option string)
| openai_moderate_content (input : string) (model : option string).

Section Tools.

(** [JSON.stringify(result, null, 2)] *)
Variable JSON_stringify : forall A : Type, A -> string.

(** The [message] axios gives the errors it throws. *)
Variable axios_message : option Response -> string.

(** [error.message]; everything thrown here is an [Error]. *)
Definition error_message (error : JsError) : string :=
  match error with
  | AxiosError response => axios_message response
  | Error message => message
  end.

(** [function errorResult(error: unknown)] *)
Definition errorResult (error : JsError) : ToolResult :=
  let message := error_message error in
  {| content := [TextContent ("Error: " ++ message)%string];
     isError := Some true |}.

(** [const result = await client.operation(...)] followed by
    [JSON.stringify(result, null, 2)], for each registered tool. *)
Definition operation (this : OpenAIClient) (call : ToolCall) : Prog string :=
  match call with
  | openai_chat_completion model messages temperature maxTokens topP tools
      toolChoice =>
      result ← chatCompletion this model messages temperature maxTokens topP
                 tools toolChoice;
      Return (JSON_stringify _ result)
  | openai_create_embedding model input dimensions =>
      result ← createEmbedding this model input dimensions;
      Return (JSON_stringify _ result)
  | openai_list_models =>
      result ← listModels this;
      Return (JSON_stringify _ result)
  | openai_get_model modelId =>
      result ← getModel this modelId;
      Return (JSON_stringify _ result)
  | openai_create_image prompt model size quality n =>
      result ← createImage this prompt model size quality n;
      Return (JSON_stringify _ result)
  | openai_create_speech model input voice responseFormat speed =>
      result ← createSpeech this model input voice responseFormat speed;
      Return (JSON_stringify _ result)
  | openai_create_transcription model fileUrl language responseFormat =>
      result ← createTranscription this model fileUrl language responseFormat;
      Return (JSON_stringify _ result)
  | openai_moderate_content input model =>
      result ← moderateContent this input model;
      Return (JSON_stringify _ result)
  end.

(** [const getClient = () => { if (!_client) _client = new
    OpenAIClient(apiKey); return _client; }], with the variable [_client]
    of [registerTools] passed in and out. *)
Definition getClient (apiKey : option string) (env : Env)
    (_client : option OpenAIClient)
  : Outcome OpenAIClient * option OpenAIClient :=
  match _client with
  | Some this => (Fulfilled this, Some this)
  | None =>
      match new_OpenAIClient apiKey env with
      | Fulfilled this => (Fulfilled this, Some this)
      | Rejected error => (Rejected error, None)
      end
  end.

(** The handler every [server.tool(...)] registers:
    [try { const result = await getClient().operation(...); return
    { content: [{ type: "text", text: JSON.stringify(result, null, 2) }] } }
    catch (error) { return errorResult(error) }]. *)
Definition tool_handler (apiKey : option string) (env : Env)
    (_client : option OpenAIClient) (call : ToolCall)
  : Prog ToolResult * option OpenAIClient :=
  let '(made, _client') := getClient apiKey env _client in
  (try_catch
     (text ← match made with
              | Fulfilled this => operation this call
              | Rejected error => Throw error
              end;
      Return {| content := [TextContent text]; isError := None |})
     (fun error => Return (errorResult error)),
   _client').

(** Tool invocations handled one after the other, each [idle]
    milliseconds after the previous one returned. *)
Fixpoint serve (server : Server) (apiKey : option string) (env : Env)
    (calls : list (N * ToolCall)) (_client : option OpenAIClient)
    (w : World)
  : list (Outcome ToolResult) * option OpenAIClient * World :=
  match calls with
  | [] => ([], _client, w)
  | (idle, call) :: rest =>
      let w0 := {| clock := clock w + Z.of_N idle;
                   lastRequestTime := lastRequestTime w;
                   log := log w |} in
      let '(handler, _client') := tool_handler apiKey env _client call in
      let '(o, w1) := run server handler w0 in
      let '(os, _client'', w2) := serve server apiKey env rest _client' w1 in
      (o :: os, _client'', w2)
  end.

End Tools.

(* ===================================================================== *)
(** ** Vocabulary of the statements *)
(* ===================================================================== *)

(** The world [rateLimit] leaves behind. *)
Definition after_rateLimit (w : World) : World :=
  let timeSinceLastRequest := clock w - lastRequestTime w in
  let w1 :=
    if timeSinceLastRequest <? RATE_LIMIT_DELAY
    then after_timer (RATE_LIMIT_DELAY - timeSinceLastRequest) w
    else w in
  set_lastRequestTime (clock w1) w1.

(** The errors [handleRequest] retries while budget remains. *)
Definition is_429 (error : JsError) : bool :=
  isAxiosError error && bool_decide (response_status error = Some 429).

(** A server that answers every request with status 429. *)
Definition always_429 (server : Server) : Prop :=
  forall n req, exists response,
    answer (server n req) = Some response /\ status response = 429.

(** The requests a program sends when run from [w], in order. *)
Definition sent_during {A} (server : Server) (p : Prog A) (w : World)
  : list HttpRequest :=
  (drop (attempts w) (requests (run server p w).2)).*2.

(** A continuation that computes without touching clock, field or
    network, as the code after the axios call of every operation does. *)
Definition effect_free {A B} (k : A -> Prog B) : Prop :=
  forall server a w, (run server (k a) w).2 = w.

(** Consecutive times at least [RATE_LIMIT_DELAY] apart. *)
Definition spaced (times : list Z) : Prop :=
  forall i a b,
    times !! i = Some a -> times !! S i = Some b -> a + RATE_LIMIT_DELAY <= b.

(** [p] sends [req], at least once and nothing else. *)
Definition sends {A} (server : Server) (p : Prog A) (w : World)
    (req : HttpRequest) : Prop :=
  exists n, (1 <= n)%nat /\ sent_during server p w = replicate n req.

(** The body the specification describes: the required fields, then each
    optional field whose argument is defined. *)
Definition spec_body (required : list (string * JsValue))
    (optional : list (string * option JsValue)) : gmap string JsValue :=
  list_to_map (required ++ omap (fun kx => pair kx.1 <$> kx.2) optional).

(** What holds between two calls made one after the other: the clock is
    not behind the recorded time of the last request, the requests sent
    so far are spaced, and none is later than the recorded time. *)
Definition paced (w : World) : Prop :=
  lastRequestTime w <= clock w /\
  spaced (issue_times w) /\
  (forall t, last (issue_times w) = Some t -> t <= lastRequestTime w).

(** A call of the shape every operation has: [handleRequest] around one
    axios call followed by effect-free decoding. *)
Definition single_request_call {T} (p : Prog T) : Prop :=
  exists req (k : Response -> Prog T) retries,
    effect_free k /\ p = handleRequest (await_axios req ≫= k) retries.

(* ===================================================================== *)
(** ** Concrete servers, requests and worlds for the examples *)
(* ===================================================================== *)

Module Examples.

#[local] Open Scope string_scope.

(** A client that has made no request yet, at some wall-clock time. *)
Definition fresh : World :=
  {| clock := 1700000000000; lastRequestTime := 0; log := [] |}.

Definition throttling_response (retryAfter : option string) : Response :=
  {| status := 429;
     headers :=
       match retryAfter with
       | Some v => {[ "retry-after" := v ]}
       | None => ∅
       end;
     data := JsonData JNull |}.

(** Answers every request with 429 after 20 ms. *)
Definition throttled (retryAfter : option string) : Server :=
  fun _ _ =>
    {| latency := 20; answer := Some (throttling_response retryAfter) |}.

(** Answers every request with the given status and payload after 20 ms. *)
Definition answering (code : Z) (payload : ResponseData) : Server :=
  fun _ _ =>
    {| latency := 20;
       answer := Some {| status := code; headers := ∅; data := payload |} |}.

(** Never answers: every request fails at the network level. *)
Definition unreachable : Server :=
  fun _ _ => {| latency := 20; answer := None |}.

Definition a_client : OpenAIClient :=
  {| client := {|
       baseURL := BASE_URL;
       default_headers :=
         {[ "Authorization" := "Bearer sk-test";
            "Content-Type" := "application/json" ]} |} |}.

Definition ping : HttpRequest :=
  {| req_method := GET; req_baseURL := BASE_URL; req_url := "/models";
     req_headers := ∅; req_data := NoData; req_responseType := RtJson |}.

Definition ping_call : Prog ResponseData :=
  response ← await_axios ping; Return (data response).

(** Answers every request with 200 and an empty list after 20 ms. *)
Definition ok_server : Server := answering 200 (JsonData (JArr [])).

(** Three [listModels] calls that overlap: the second starts 10 ms and the
    third 30 ms after the first, none waiting for another to settle. *)
Definition overlapping_calls : list (Task ResponseData) :=
  [OnTimer (clock fresh) (listModels a_client);
   OnTimer (clock fresh + 10) (listModels a_client);
   OnTimer (clock fresh + 30) (listModels a_client)].

(** The same three calls, each awaited before the next is made. *)
Definition sequential_calls : list (N * Prog ResponseData) :=
  [(0%N, listModels a_client);
   (10%N, listModels a_client);
   (20%N, listModels a_client)].

End Examples.

(* ===================================================================== *)
(** ** Further servers and worlds for the examples *)
(* ===================================================================== *)

Module Scenarios.

#[local] Open Scope string_scope.

(** Throttles the first [k] requests it receives, then answers 200 with an
    empty list; every reply takes 20 ms. *)
Definition flaky (k : nat) : Server :=
  fun n _ =>
    if (n <? k)%nat
    then {| latency := 20;
            answer := Some (Examples.throttling_response None) |}
    else {| latency := 20;
            answer := Some {| status := 200; headers := ∅;
                              data := JsonData (JArr []) |} |}.


(** [JSON.stringify] and axios' messages, as far as the examples need
    them: the status in words, and a fixed text for every result. *)
Definition stringify (A : Type) (_ : A) : string := "{}".

Definition message_of (response : option Response) : string :=
  match response with
  | Some _ => "Request failed"
  | None => "Network Error"
  end.

Definition tool_calls : list (N * ToolCall) :=
  [(0%N, openai_list_models);
   (10%N, openai_get_model "gpt-4");
   (20%N, openai_moderate_content "hello" None)].

End Scenarios.

(* ===================================================================== *)
(** ** Theorems *)
(* ===================================================================== *)

(** *** Base64 *)

Lemma char_sextet_sextet_char (n : N) :
  (n < 64)%N -> Base64.char_sextet (Base64.sextet_char n) = Some n.
Proof.
  intros Hn.
  assert (Hnat : (N.to_nat n < 64)%nat) by lia.
  rewrite <- (N2Nat.id n) at 2.
  unfold Base64.sextet_char.
  generalize dependent (N.to_nat n). clear n Hn. intros k Hk.
  do 64 (destruct k as [|k]; [reflexivity|]). lia.
Qed.

Lemma sextet_char_not_pad (n : N) :
  (n < 64)%N -> Ascii.eqb (Base64.sextet_char n) Base64.pad = false.
Proof.
  intros Hn.
  assert (Hnat : (N.to_nat n < 64)%nat) by lia.
  unfold Base64.sextet_char.
  generalize dependent (N.to_nat n). clear n Hn. intros k Hk.
  do 64 (destruct k as [|k]; [reflexivity|]). lia.
Qed.

#[local] Ltac n_arith :=
  Zify.zify; Z.to_euclidean_division_equations; lia.

Lemma decode_group_three (a b c : byte) :
  let n := (Byte.to_N a * 65536 + Byte.to_N b * 256 + Byte.to_N c)%N in
  Base64.decode_group
    (Base64.sextet_char (n / 262144)) (Base64.sextet_char (n / 4096 mod 64))
    (Base64.sextet_char (n / 64 mod 64)) (Base64.sextet_char (n mod 64))
  = Some [a; b; c].
Proof.
  intros n.
  pose proof (Byte.to_N_bounded a) as Ha.
  pose proof (Byte.to_N_bounded b) as Hb.
  pose proof (Byte.to_N_bounded c) as Hc.
  unfold Base64.decode_group.
  rewrite !char_sextet_sextet_char, !sextet_char_not_pad
    by (subst n; n_arith).
  cbn [mbind option_bind andb].
  replace (_ / 65536)%N with (Byte.to_N a) by (subst n; n_arith).
  replace (_ / 256 mod 256)%N with (Byte.to_N b) by (subst n; n_arith).
  replace (_ mod 256)%N with (Byte.to_N c) by (subst n; n_arith).
  rewrite !Byte.of_to_N. reflexivity.
Qed.

Lemma decode_group_two (a b : byte) :
  let n := ((Byte.to_N a * 256 + Byte.to_N b) * 4)%N in
  Base64.decode_group
    (Base64.sextet_char (n / 4096)) (Base64.sextet_char (n / 64 mod 64))
    (Base64.sextet_char (n mod 64)) Base64.pad
  = Some [a; b].
Proof.
  intros n.
  pose proof (Byte.to_N_bounded a) as Ha.
  pose proof (Byte.to_N_bounded b) as Hb.
  unfold Base64.decode_group.
  rewrite !char_sextet_sextet_char, !sextet_char_not_pad
    by (subst n; n_arith).
  change (Ascii.eqb Base64.pad Base64.pad) with true.
  cbn [mbind option_bind andb].
  replace (_ / 256)%N with (Byte.to_N a) by (subst n; n_arith).
  replace (_ mod 256)%N with (Byte.to_N b) by (subst n; n_arith).
  rewrite !Byte.of_to_N. reflexivity.
Qed.

Lemma decode_group_one (a : byte) :
  let n := (Byte.to_N a * 16)%N in
  Base64.decode_group
    (Base64.sextet_char (n / 64)) (Base64.sextet_char (n mod 64))
    Base64.pad Base64.pad
  = Some [a].
Proof.
  intros n.
  pose proof (Byte.to_N_bounded a) as Ha.
  unfold Base64.decode_group.
  rewrite !char_sextet_sextet_char by (subst n; n_arith).
  cbn [mbind option_bind].
  change (Ascii.eqb Base64.pad Base64.pad) with true. cbn [andb]. cbv iota.
  replace (_ / 16)%N with (Byte.to_N a) by (subst n; n_arith).
  rewrite Byte.of_to_N. reflexivity.
Qed.

(** Lists of bytes, three at a time. *)
Lemma bytes_by_three (P : list byte -> Prop) :
  P [] -> (forall a, P [a]) -> (forall a b, P [a; b]) ->
  (forall a b c rest, P rest -> P (a :: b :: c :: rest)) ->
  forall bytes, P bytes.
Proof.
  intros H0 H1 H2 H3.
  fix IH 1.
  intros [|a [|b [|c rest]]];
    [apply H0 | apply H1 | apply H2 | apply H3, IH].
Qed.

Lemma decode_encode (bytes : list byte) :
  Base64.decode (Base64.encode bytes) = Some bytes.
Proof.
  induction bytes as [|a|a b|a b c rest IH] using bytes_by_three.
  - reflexivity.
  - cbn [Base64.encode Base64.decode]. rewrite decode_group_one. reflexivity.
  - cbn [Base64.encode Base64.decode]. rewrite decode_group_two. reflexivity.
  - change (Base64.encode (a :: b :: c :: rest)) with
      (let n := (Byte.to_N a * 65536 + Byte.to_N b * 256 + Byte.to_N c)%N in
       String (Base64.sextet_char (n / 262144))
         (String (Base64.sextet_char (n / 4096 mod 64))
           (String (Base64.sextet_char (n / 64 mod 64))
             (String (Base64.sextet_char (n mod 64)) (Base64.encode rest))))).
    cbv zeta. cbn [Base64.decode].
    rewrite decode_group_three. cbn [mbind option_bind].
    destruct (Base64.encode rest) as [|c1 tl] eqn:E.
    + destruct rest as [|x [|y [|z rest]]]; [reflexivity|discriminate..].
    + cbn [List.length Nat.eqb]. rewrite IH. reflexivity.
Qed.

(** *** Running programs *)

Lemma run_bind {A B} (server : Server) (p : Prog A) (f : A -> Prog B)
    (w : World) :
  run server (p ≫= f) w =
  match run server p w with
  | (Fulfilled a, w') => run server (f a) w'
  | (Rejected e, w') => (Rejected e, w')
  end.
Proof.
  unfold mbind, prog_mbind.
  revert w; induction p as [a|e|k IH|k IH|t k IH|ms k IH|req k IH];
    intros w; cbn [prog_bind run]; auto.
Qed.

Lemma run_try_catch {A} (server : Server) (p : Prog A)
    (handler : JsError -> Prog A) (w : World) :
  run server (try_catch p handler) w =
  match run server p w with
  | (Fulfilled a, w') => (Fulfilled a, w')
  | (Rejected e, w') => run server (handler e) w'
  end.
Proof.
  revert w; induction p as [a|e|k IH|k IH|t k IH|ms k IH|req k IH];
    intros w; cbn [try_catch run]; auto.
Qed.

Lemma run_sleep (server : Server) (ms : Z) (w : World) :
  run server (sleep ms) w = (Fulfilled tt, after_timer ms w).
Proof. reflexivity. Qed.

Lemma run_rateLimit (server : Server) (w : World) :
  run server rateLimit w = (Fulfilled tt, after_rateLimit w).
Proof.
  unfold rateLimit, after_rateLimit.
  cbn [Date_now mbind prog_mbind prog_bind run].
  destruct (clock w - lastRequestTime w <? RATE_LIMIT_DELAY); reflexivity.
Qed.

Lemma run_await_axios {T} (server : Server) (req : HttpRequest)
    (k : Response -> Prog T) (w : World) :
  run server (await_axios req ≫= k) w =
  let r := server (attempts w) req in
  match settle r with
  | Fulfilled response => run server (k response) (after_request req r w)
  | Rejected e => (Rejected e, after_request req r w)
  end.
Proof.
  rewrite run_bind. cbn [await_axios run]. cbv zeta.
  destruct (settle _); reflexivity.
Qed.

(** One round of [handleRequest]: the spacing check, one run of the
    request, and on a 429 with budget left the wait and the next round. *)
Lemma run_handleRequest {T} (server : Server) (request : Prog T)
    (retries : nat) (w : World) :
  run server (handleRequest request retries) w =
  match run server request (after_rateLimit w) with
  | (Fulfilled a, w') => (Fulfilled a, w')
  | (Rejected e, w') =>
      match retries with
      | S retries_minus_1 =>
          if is_429 e
          then run server (handleRequest request retries_minus_1)
                 (after_timer (retry_delay e) w')
          else (Rejected e, w')
      | O => (Rejected e, w')
      end
  end.
Proof.
  destruct retries as [|r]; cbn [handleRequest];
    rewrite run_bind, run_rateLimit, run_try_catch;
    destruct (run server request (after_rateLimit w)) as [[a|e] w'];
    try reflexivity; unfold is_429.
  - destruct (isAxiosError e); [|reflexivity].
    rewrite andb_false_r. reflexivity.
  - destruct (isAxiosError e); [|reflexivity]. cbn [andb Nat.ltb Nat.leb].
    rewrite andb_true_r.
    destruct (bool_decide _); [|reflexivity].
    rewrite run_bind, run_sleep. reflexivity.
Qed.

(** *** The event log *)

Lemma requests_after_request (req : HttpRequest) (r : Reply) (w : World) :
  requests (after_request req r w) = requests w ++ [(clock w, req)].
Proof. reflexivity. Qed.

Lemma requests_after_timer (ms : Z) (w : World) :
  requests (after_timer ms w) = requests w.
Proof. reflexivity. Qed.

Lemma requests_after_rateLimit (w : World) :
  requests (after_rateLimit w) = requests w.
Proof.
  unfold after_rateLimit.
  destruct (clock w - lastRequestTime w <? RATE_LIMIT_DELAY); reflexivity.
Qed.

Lemma attempts_after_request (req : HttpRequest) (r : Reply) (w : World) :
  attempts (after_request req r w) = S (attempts w).
Proof.
  unfold attempts. rewrite requests_after_request, length_app.
  cbn [List.length]. lia.
Qed.

Lemma attempts_after_timer (ms : Z) (w : World) :
  attempts (after_timer ms w) = attempts w.
Proof. reflexivity. Qed.

Lemma attempts_after_rateLimit (w : World) :
  attempts (after_rateLimit w) = attempts w.
Proof. unfold attempts. rewrite requests_after_rateLimit. reflexivity. Qed.

Lemma timers_after_request (req : HttpRequest) (r : Reply) (w : World) :
  timers (after_request req r w) = timers w.
Proof. reflexivity. Qed.

Lemma timers_after_timer (ms : Z) (w : World) :
  timers (after_timer ms w) = timers w ++ [(clock w, ms)].
Proof. reflexivity. Qed.

Lemma settle_429 (r : Reply) (response : Response) :
  answer r = Some response -> status response = 429 ->
  settle r = Rejected (AxiosError (Some response)).
Proof. unfold settle. intros -> ->. reflexivity. Qed.

Lemma is_429_axios (response : Response) :
  is_429 (AxiosError (Some response)) = bool_decide (status response = 429).
Proof.
  unfold is_429. cbn [isAxiosError response_status andb].
  apply bool_decide_ext. split; [intros [= ->]|intros ->]; reflexivity.
Qed.

(** *** The retry bound *)

(** What [handleRequest] does against a server that always answers 429:
    the requests it adds to the log, and the error it ends with. *)
Lemma run_handleRequest_always_429 {T} (server : Server) (req : HttpRequest)
    (k : Response -> Prog T) (R : nat) (w : World) :
  always_429 server ->
  let result := run server (handleRequest (T:=T) (await_axios req ≫= k) R) w in
  (requests result.2).*2 = (requests w).*2 ++ replicate (S R) req /\
  result.1 = Rejected (AxiosError (answer (server (attempts w + R)%nat req))).
Proof.
  intros Hserver. revert w.
  induction R as [|R IH]; intros w; cbv zeta;
    rewrite run_handleRequest, run_await_axios; cbv zeta;
    rewrite attempts_after_rateLimit;
    destruct (Hserver (attempts w) req) as (response & Hanswer & Hstatus);
    rewrite (settle_429 _ _ Hanswer Hstatus).
  - cbn [fst snd]. rewrite requests_after_request, requests_after_rateLimit.
    rewrite fmap_app, Nat.add_0_r, Hanswer. split; reflexivity.
  - rewrite is_429_axios, bool_decide_eq_true_2 by assumption.
    specialize (IH (after_timer (retry_delay (AxiosError (Some response)))
                     (after_request req (server (attempts w) req)
                        (after_rateLimit w)))).
    cbv zeta in IH. destruct IH as [IHreq IHerr]. split.
    + rewrite IHreq, requests_after_timer, requests_after_request,
        requests_after_rateLimit, fmap_app, <- app_assoc.
      reflexivity.
    + rewrite IHerr, attempts_after_timer, attempts_after_request,
        attempts_after_rateLimit.
      replace (S (attempts w) + R)%nat with (attempts w + S R)%nat by lia.
      reflexivity.
Qed.

(** C1. Against a transport that always fails with HTTP 429, a call made
    through [handleRequest] with retry budget [R] performs exactly [R + 1]
    attempts (all of them the same request) and then rejects with the 429
    error of the last attempt, unchanged; with [R = 0] that is exactly one
    attempt. *)
Theorem retry_bound {T} (server : Server) (req : HttpRequest)
    (k : Response -> Prog T) (R : nat) (w : World) :
  always_429 server ->
  let result := run server (handleRequest (T:=T) (await_axios req ≫= k) R) w in
  attempts result.2 = (attempts w + (R + 1))%nat /\
  sent_during server (handleRequest (T:=T) (await_axios req ≫= k) R) w
    = replicate (R + 1) req /\
  exists final,
    answer (server (attempts w + R)%nat req) = Some final /\
    status final = 429 /\
    result.1 = Rejected (AxiosError (Some final)).
Proof.
  intros Hserver result.
  destruct (run_handleRequest_always_429 server req k R w Hserver)
    as [Hreq Herr].
  fold result in Hreq, Herr.
  assert (Hlen : attempts result.2 = (attempts w + (R + 1))%nat).
  { unfold attempts.
    rewrite <- (length_fmap snd (requests result.2)), Hreq.
    rewrite length_app, length_fmap, length_replicate. lia. }
  split; [exact Hlen|]. split.
  - unfold sent_during. fold result.
    rewrite fmap_drop, Hreq. unfold attempts.
    rewrite <- (length_fmap snd (requests w)), drop_app_length.
    f_equal. lia.
  - destruct (Hserver (attempts w + R)%nat req) as (final & Hanswer & Hstatus).
    exists final. split; [assumption|]. split; [assumption|].
    rewrite Herr, Hanswer. reflexivity.
Qed.

#[local] Ltac by_computation := vm_compute; reflexivity.

(** *** Errors that are not retried *)

(** C7. When the request fails with an error that is not an axios error
    with status 429 (any other HTTP status, a network failure without a
    response, or an error that is no axios error at all), [handleRequest]
    rejects with that same error whatever the retry budget, and the world
    is the one the single failed attempt left behind: no further request,
    no timer, no time spent after the failure. *)
Theorem non_retryable_error_passthrough {T} (server : Server)
    (request : Prog T) (retries : nat) (w w' : World) (error : JsError) :
  run server request (after_rateLimit w) = (Rejected error, w') ->
  is_429 error = false ->
  run server (handleRequest request retries) w = (Rejected error, w').
Proof.
  intros Hrun Hkind. rewrite run_handleRequest, Hrun, Hkind.
  destruct retries; reflexivity.
Qed.

Lemma non_retryable_error_passthrough_witness :
  is_429 (AxiosError (Some {| status := 500; headers := ∅;
                              data := JsonData JNull |})) = false /\
  let result :=
    run (Examples.answering 500 (JsonData JNull))
        (handleRequest Examples.ping_call 3) Examples.fresh in
  result.1 = Rejected (AxiosError (Some {| status := 500; headers := ∅;
                                           data := JsonData JNull |})) /\
  attempts result.2 = 1%nat /\ timers result.2 = [] /\
  clock result.2 = clock Examples.fresh + 20.
Proof.
  split; [reflexivity|].
  cbv zeta.
  rewrite (non_retryable_error_passthrough
             (Examples.answering 500 (JsonData JNull)) Examples.ping_call 3
             Examples.fresh
             (after_request Examples.ping
                (Examples.answering 500 (JsonData JNull) O Examples.ping)
                (after_rateLimit Examples.fresh))
             (AxiosError (Some {| status := 500; headers := ∅;
                                  data := JsonData JNull |})));
    [repeat split | reflexivity | reflexivity].
Defined.

(** A network failure (no response at all) is not retried either. *)
Example network_failure_fails_at_once :
  let result :=
    run Examples.unreachable (handleRequest Examples.ping_call 3)
        Examples.fresh in
  result.1 = Rejected (AxiosError None) /\
  attempts result.2 = 1%nat /\ timers result.2 = [].
Proof. repeat split. Qed.

(** *** The wait before a retry *)

Lemma parseInt_absent : ParseInt.parseInt None = NaN.
Proof. reflexivity. Qed.

Example parseInt_examples :
  ParseInt.parseInt (Some "2"%string) = Int 2 /\
  ParseInt.parseInt (Some "120"%string) = Int 120 /\
  ParseInt.parseInt (Some " 7"%string) = Int 7 /\
  ParseInt.parseInt (Some "+3"%string) = Int 3 /\
  ParseInt.parseInt (Some "2.5"%string) = Int 2 /\
  ParseInt.parseInt (Some "30s"%string) = Int 30 /\
  ParseInt.parseInt (Some "-5"%string) = Int (-5) /\
  ParseInt.parseInt (Some "0"%string) = Int 0 /\
  ParseInt.parseInt (Some EmptyString) = NaN /\
  ParseInt.parseInt (Some "soon"%string) = NaN /\
  ParseInt.parseInt
    (Some "Wed, 21 Oct 2026 07:28:00 GMT"%string) = NaN.
Proof. repeat split. Qed.

(** Delays outside what a timer takes are run as 1 ms. *)
Example timer_delay_examples :
  timer_delay 2000 = 2000 /\ timer_delay 0 = 1 /\ timer_delay (-5000) = 1 /\
  timer_delay (2147484 * 1000) = 1.
Proof. repeat split. Qed.

Lemma timer_delay_in_range (ms : Z) :
  1 <= ms <= TIMEOUT_MAX -> timer_delay ms = ms.
Proof.
  intros [Hlo Hhi]. unfold timer_delay.
  rewrite (proj2 (Z.leb_le _ _) Hlo), (proj2 (Z.leb_le _ _) Hhi).
  reflexivity.
Qed.

(** A 429 with budget left: wait, then start the next round. *)
Lemma run_handleRequest_retry {T} (server : Server) (request : Prog T)
    (retries : nat) (w w' : World) (error : JsError) :
  run server request (after_rateLimit w) = (Rejected error, w') ->
  is_429 error = true ->
  run server (handleRequest request (S retries)) w =
  run server (handleRequest request retries)
      (after_timer (retry_delay error) w').
Proof.
  intros Hrun Hkind. rewrite run_handleRequest, Hrun, Hkind. reflexivity.
Qed.

(** C3, as the code has it. On a 429 failure with retry budget left,
    [handleRequest] reads the [retry-after] header of the response, parses
    it with [parseInt(_, 10)], awaits one timer and starts the next
    attempt.  The timer is set for exactly the parsed number of seconds
    when that number is not zero, and for the default of one second when
    the header is absent, cannot be parsed, or parses to zero.  A timer
    between 1 ms and 2^31-1 ms takes exactly its delay. *)
Theorem backoff_wait {T} (server : Server) (request : Prog T)
    (retries : nat) (w w' : World) (error : JsError) :
  run server request (after_rateLimit w) = (Rejected error, w') ->
  is_429 error = true ->
  let header := response_header error "retry-after" in
  let resumed := after_timer (retry_delay error) w' in
  run server (handleRequest request (S retries)) w =
    run server (handleRequest request retries) resumed /\
  timers resumed = timers w' ++ [(clock w', retry_delay error)] /\
  (forall n, ParseInt.parseInt header = Int n -> n <> 0 ->
     retry_delay error = n * 1000) /\
  (header = None \/ ParseInt.parseInt header = NaN \/
   ParseInt.parseInt header = Int 0 ->
     retry_delay error = 1 * 1000) /\
  (1 <= retry_delay error <= TIMEOUT_MAX ->
     clock resumed = clock w' + retry_delay error).
Proof.
  intros Hrun Hkind header resumed. repeat apply conj.
  - apply run_handleRequest_retry; assumption.
  - apply timers_after_timer.
  - intros n Hparse Hn. unfold retry_delay. fold header.
    rewrite Hparse. cbn [number_or].
    destruct (Z.eqb_spec n 0) as [->|_]; [contradiction|reflexivity].
  - intros Hdefault. unfold retry_delay. fold header.
    destruct Hdefault as [-> | [-> | ->]]; reflexivity.
  - intros Hrange. subst resumed. cbn [after_timer clock].
    rewrite timer_delay_in_range by assumption. reflexivity.
Qed.

Lemma backoff_wait_witness :
  is_429 (AxiosError (Some (Examples.throttling_response (Some "2"%string))))
    = true /\
  ParseInt.parseInt
    (response_header
       (AxiosError (Some (Examples.throttling_response (Some "2"%string))))
       "retry-after") = Int 2 /\
  retry_delay
    (AxiosError (Some (Examples.throttling_response (Some "2"%string))))
    = 2 * 1000.
Proof.
  split; [reflexivity|]. split; [by_computation|].
  refine (proj1 (proj2 (proj2
            (backoff_wait (Examples.throttled (Some "2"%string))
               Examples.ping_call 2 Examples.fresh _ _ _ _))) 2 _ _).
  - reflexivity.
  - reflexivity.
  - by_computation.
  - discriminate.
Defined.

(** The claim as the specification words it (the wait is the parsed number
    of seconds, and the default applies only to an absent or unparsable
    header) fails for the header ["0"]: it is present and parses to the
    integer 0, yet the retry comes one second later, not zero seconds
    later. *)
Lemma backoff_wait_zero_counterexample :
  let server := Examples.throttled (Some "0"%string) in
  let error := AxiosError (Some (Examples.throttling_response (Some "0"%string))) in
  response_header error "retry-after" = Some "0"%string /\
  ParseInt.parseInt (response_header error "retry-after") = Int 0 /\
  timers (run server (handleRequest Examples.ping_call 1) Examples.fresh).2
    = [(clock Examples.fresh + 20, 1000)] /\
  issue_times (run server (handleRequest Examples.ping_call 1) Examples.fresh).2
    = [clock Examples.fresh; clock Examples.fresh + 20 + 1000] /\
  1000 <> 0 * 1000.
Proof. cbv zeta. repeat split; try by_computation. lia. Qed.

(** C10. When the [retry-after] header of a 429 response parses to the
    integer 0, as the text ["0"] does, [handleRequest] asks for a timer of
    1000 ms, not 0 ms, and the next attempt starts one second after the
    failure: zero gets the wait of a header that is absent or cannot be
    parsed. *)
Theorem retry_after_zero_waits_default {T} (server : Server)
    (request : Prog T) (retries : nat) (w w' : World) (error : JsError) :
  run server request (after_rateLimit w) = (Rejected error, w') ->
  is_429 error = true ->
  ParseInt.parseInt (response_header error "retry-after") = Int 0 ->
  let resumed := after_timer (retry_delay error) w' in
  ParseInt.parseInt (Some "0"%string) = Int 0 /\
  (forall other,
     ParseInt.parseInt (response_header other "retry-after") = NaN ->
     retry_delay error = retry_delay other) /\
  timers resumed = timers w' ++ [(clock w', 1000)] /\
  clock resumed = clock w' + 1000 /\
  run server (handleRequest request (S retries)) w =
    run server (handleRequest request retries) resumed.
Proof.
  intros Hrun Hkind Hparse resumed.
  assert (Hdelay : retry_delay error = 1000).
  { unfold retry_delay. rewrite Hparse. reflexivity. }
  split; [reflexivity|]. split; [|split; [|split]].
  - intros other Hother. rewrite Hdelay. unfold retry_delay.
    rewrite Hother. reflexivity.
  - subst resumed. rewrite timers_after_timer, Hdelay. reflexivity.
  - subst resumed. rewrite Hdelay. reflexivity.
  - apply run_handleRequest_retry; assumption.
Qed.

Lemma retry_after_zero_waits_default_witness :
  let server := Examples.throttled (Some "0"%string) in
  let error := AxiosError (Some (Examples.throttling_response (Some "0"%string))) in
  let w' := after_request Examples.ping (server O Examples.ping)
              (after_rateLimit Examples.fresh) in
  is_429 error = true /\
  ParseInt.parseInt (response_header error "retry-after") = Int 0 /\
  clock (after_timer (retry_delay error) w') = clock w' + 1000.
Proof.
  cbv zeta. split; [reflexivity|]. split; [by_computation|].
  refine (proj1 (proj2 (proj2 (proj2
            (retry_after_zero_waits_default
               (Examples.throttled (Some "0"%string)) Examples.ping_call 2
               Examples.fresh _ _ _ _ _))))).
  - reflexivity.
  - reflexivity.
  - by_computation.
Defined.

(** *** What one operation sends *)

(** One axios call followed by effect-free decoding leaves the world one
    request further, however it settles. *)
Lemma run_single_call_world {T} (server : Server) (req : HttpRequest)
    (k : Response -> Prog T) (w : World) :
  effect_free k ->
  (run server (await_axios req ≫= k) w).2
  = after_request req (server (attempts w) req) w.
Proof.
  intros Hk. rewrite run_await_axios. cbv zeta.
  destruct (settle _); [apply Hk|reflexivity].
Qed.

Lemma handleRequest_requests {T} (server : Server) (req : HttpRequest)
    (k : Response -> Prog T) (retries : nat) (w : World) :
  effect_free k ->
  exists n, (1 <= n <= S retries)%nat /\
    (requests (run server (handleRequest (T:=T) (await_axios req ≫= k)
                             retries) w).2).*2
    = (requests w).*2 ++ replicate n req.
Proof.
  intros Hk. revert w.
  assert (Hone : forall w r,
    (requests (after_request req r (after_rateLimit w))).*2
    = (requests w).*2 ++ replicate 1 req).
  { intros w r.
    rewrite requests_after_request, requests_after_rateLimit, fmap_app.
    reflexivity. }
  induction retries as [|retries IH]; intros w;
    rewrite run_handleRequest;
    pose proof (run_single_call_world server req k (after_rateLimit w) Hk)
      as Hworld;
    destruct (run server (await_axios req ≫= k) (after_rateLimit w))
      as [[a|e] w1]; cbn [snd] in Hworld; subst w1;
    try (exists 1%nat; split; [lia|apply Hone]).
  destruct (is_429 e).
  - destruct (IH (after_timer (retry_delay e)
                   (after_request req
                      (server (attempts (after_rateLimit w)) req)
                      (after_rateLimit w)))) as (n & Hn & Hreq).
    exists (S n). split; [lia|].
    rewrite Hreq, requests_after_timer, Hone, <- app_assoc.
    reflexivity.
  - exists 1%nat. split; [lia|]. apply Hone.
Qed.

Lemma handleRequest_sends {T} (server : Server) (req : HttpRequest)
    (k : Response -> Prog T) (retries : nat) (w : World) :
  effect_free k ->
  sends server (handleRequest (T:=T) (await_axios req ≫= k) retries) w req.
Proof.
  intros Hk.
  destruct (handleRequest_requests server req k retries w Hk)
    as (n & Hn & Hreq).
  exists n. split; [lia|].
  unfold sent_during. rewrite fmap_drop, Hreq. unfold attempts.
  rewrite <- (length_fmap snd (requests w)), drop_app_length.
  reflexivity.
Qed.

Lemma effect_free_data : effect_free (fun response => Return (data response)).
Proof. intros server response w. reflexivity. Qed.

Lemma effect_free_speech :
  effect_free (fun response =>
    buffer ← Buffer_from (data response);
    Return {| audio_base64 := Base64.encode buffer |}).
Proof. intros server response w. destruct (data response); reflexivity. Qed.

Create HintDb effects.
#[local] Hint Resolve effect_free_data effect_free_speech : effects.

(** Assigning one more optional field, as the code does, extends the body
    the specification describes by that field. *)
Lemma spec_body_snoc (required : list (string * JsValue))
    (optional : list (string * option JsValue)) (key : string)
    (x : option JsValue) :
  key ∉ required.*1 -> key ∉ optional.*1 ->
  assign_if_defined key x (spec_body required optional)
  = spec_body required (optional ++ [(key, x)]).
Proof.
  intros Hrequired Hoptional. unfold spec_body, assign_if_defined.
  rewrite omap_app, app_assoc.
  destruct x as [v|]; cbn [omap list_omap fst snd fmap option_fmap option_map].
  - rewrite list_to_map_snoc; [reflexivity|].
    rewrite fmap_app, not_elem_of_app. split; [assumption|].
    intros Hin. apply Hoptional.
    apply list_elem_of_fmap in Hin as ([k v'] & -> & Hin).
    apply list_elem_of_omap in Hin as ([k' x'] & Hin & Hsome).
    cbn [fst snd] in Hsome.
    destruct x' as [v''|]; [|discriminate]. injection Hsome as -> ->.
    apply list_elem_of_fmap. exists (k, Some v'). split; [reflexivity|assumption].
  - rewrite app_nil_r. reflexivity.
Qed.

#[local] Ltac literal_of body :=
  lazymatch body with
  | assign_if_defined _ _ ?inner => literal_of inner
  | _ => body
  end.

#[local] Ltac fresh_key :=
  apply (bool_decide_unpack _); vm_compute; reflexivity.

(** [code = spec_body required optional], the code being a literal with
    the required fields followed by one assignment per optional field. *)
#[local] Ltac body_equation :=
  lazymatch goal with
  | |- ?code = spec_body ?required _ =>
      let literal := literal_of code in
      change literal with (spec_body required []);
      repeat (rewrite spec_body_snoc by fresh_key);
      reflexivity
  end.

(** *** Optional fields of the chat completion *)

(** C4. Every request [chatCompletion] sends is a POST to
    [/chat/completions] whose JSON body holds, for each optional argument
    ([temperature], [maxTokens], [topP], [tools], [toolChoice]), no key at
    all when the argument is [undefined] and the supplied value itself
    when it is defined; [model] and [messages] are always present. *)
Theorem chat_optional_fields (this : OpenAIClient) (model : string)
    (messages : list JsValue) (temperature maxTokens topP : option float)
    (tools : option (list JsValue)) (toolChoice : option JsValue)
    (server : Server) (w : World) :
  exists body,
    sends server
      (chatCompletion this model messages temperature maxTokens topP tools
         toolChoice) w
      (post_request (client this) "/chat/completions" body RtJson) /\
    body !! "model"%string = Some (JStr model) /\
    body !! "messages"%string = Some (JArr messages) /\
    body !! "temperature"%string = JNum <$> temperature /\
    body !! "max_tokens"%string = JNum <$> maxTokens /\
    body !! "top_p"%string = JNum <$> topP /\
    body !! "tools"%string = JArr <$> tools /\
    body !! "tool_choice"%string = toolChoice.
Proof.
  eexists. split.
  - unfold chatCompletion, axios_post. cbv zeta.
    apply handleRequest_sends. auto with effects.
  - unfold assign_if_defined.
    destruct temperature, maxTokens, topP, tools, toolChoice;
      repeat split; vm_compute; reflexivity.
Qed.

(** *** The body of every operation *)

#[local] Ltac operation_sends :=
  intros; cbv zeta; unfold axios_post, axios_get;
  lazymatch goal with
  | |- sends _ (handleRequest (await_axios (post_request _ _ ?code _) ≫= _) _)
         _ (post_request _ _ ?spec _) =>
      replace spec with code by body_equation
  | |- _ => idtac
  end;
  apply handleRequest_sends; auto with effects.

(** C5, as the code has it. Every operation sends the request the
    specification describes: the required fields, then each optional field
    exactly when its argument is defined ([listModels] and [getModel] send
    a GET without a body).  Image generation differs in one field: [model]
    is always in the body, as the supplied model when that is a non-empty
    string and as ["dall-e-3"] when it is [undefined]. *)
Theorem operation_bodies (this : OpenAIClient) (server : Server) (w : World) :
  (forall model messages temperature maxTokens topP tools toolChoice,
     sends server
       (chatCompletion this model messages temperature maxTokens topP tools
          toolChoice) w
       (post_request (client this) "/chat/completions"
          (spec_body
             [("model", JStr model); ("messages", JArr messages)]
             [("temperature", JNum <$> temperature);
              ("max_tokens", JNum <$> maxTokens);
              ("top_p", JNum <$> topP);
              ("tools", JArr <$> tools);
              ("tool_choice", toolChoice)]%string)
          RtJson)) /\
  (forall model input dimensions,
     sends server (createEmbedding this model input dimensions) w
       (post_request (client this) "/embeddings"
          (spec_body
             [("model", JStr model); ("input", embedding_input input)]
             [("dimensions", JNum <$> dimensions)]%string)
          RtJson)) /\
  sends server (listModels this) w (get_request (client this) "/models") /\
  (forall modelId,
     sends server (getModel this modelId) w
       (get_request (client this) ("/models/" ++ modelId))) /\
  (forall prompt model size quality n,
     sends server (createImage this prompt model size quality n) w
       (post_request (client this) "/images/generations"
          (spec_body
             [("prompt", JStr prompt);
              ("model", JStr (string_or model "dall-e-3"))]
             [("size", JStr <$> size);
              ("quality", JStr <$> quality);
              ("n", JNum <$> n)]%string)
          RtJson)) /\
  string_or None "dall-e-3" = "dall-e-3"%string /\
  (forall model, model <> EmptyString ->
     string_or (Some model) "dall-e-3" = model) /\
  (forall model input voice responseFormat speed,
     sends server (createSpeech this model input voice responseFormat speed) w
       (post_request (client this) "/audio/speech"
          (spec_body
             [("model", JStr model); ("input", JStr input);
              ("voice", JStr voice)]
             [("response_format", JStr <$> responseFormat);
              ("speed", JNum <$> speed)]%string)
          RtArrayBuffer)) /\
  (forall model fileUrl language responseFormat,
     sends server
       (createTranscription this model fileUrl language responseFormat) w
       (post_request (client this) "/audio/transcriptions"
          (spec_body
             [("model", JStr model); ("file", JStr fileUrl)]
             [("language", JStr <$> language);
              ("response_format", JStr <$> responseFormat)]%string)
          RtJson)) /\
  (forall input model,
     sends server (moderateContent this input model) w
       (post_request (client this) "/moderations"
          (spec_body
             [("input", JStr input)]
             [("model", JStr <$> model)]%string)
          RtJson)).
Proof.
  repeat apply conj.
  - unfold chatCompletion. operation_sends.
  - unfold createEmbedding. operation_sends.
  - unfold listModels. operation_sends.
  - unfold getModel. operation_sends.
  - unfold createImage. operation_sends.
  - reflexivity.
  - intros [|c model] Hmodel; [congruence|reflexivity].
  - unfold createSpeech. operation_sends.
  - unfold createTranscription. operation_sends.
  - unfold moderateContent. operation_sends.
Qed.

(** The claim as the specification words it fails for image generation:
    called with [model] undefined it sends a body that does have a [model]
    key, holding the default ["dall-e-3"]. *)
Lemma image_model_counterexample :
  exists body,
    sent_during (Examples.answering 200 (JsonData JNull))
      (createImage Examples.a_client "a lighthouse" None None None None)
      Examples.fresh
    = [post_request (client Examples.a_client) "/images/generations" body
         RtJson] /\
    body !! "model"%string = Some (JStr "dall-e-3") /\
    body !! "model"%string <> None.
Proof.
  eexists. split; [by_computation|]. split; [by_computation|].
  vm_compute. discriminate.
Qed.

(** *** Transcription *)

Lemma new_client_headers (apiKey : option string) (env : Env)
    (this : OpenAIClient) :
  new_OpenAIClient apiKey env = Fulfilled this ->
  baseURL (client this) = BASE_URL /\
  default_headers (client this) !! "Content-Type"%string
    = Some "application/json"%string /\
  exists key, key <> EmptyString /\
    (apiKey = Some key \/ env !! "OPENAI_API_KEY"%string = Some key) /\
    default_headers (client this) !! "Authorization"%string
      = Some ("Bearer " ++ key)%string.
Proof.
  unfold new_OpenAIClient. intros Hnew.
  destruct (falsy (if falsy apiKey then env !! "OPENAI_API_KEY"%string
                   else apiKey)) eqn:Hkey; [discriminate|].
  injection Hnew as <-. cbn [client baseURL default_headers].
  split; [reflexivity|]. split; [reflexivity|].
  destruct apiKey as [[|c key]|]; cbn [falsy] in Hkey |- *.
  - destruct (env !! "OPENAI_API_KEY"%string) as [[|c key]|] eqn:Henv;
      try discriminate.
    exists (String c key). repeat split; [discriminate|right; reflexivity].
  - exists (String c key). repeat split; [discriminate|left; reflexivity].
  - destruct (env !! "OPENAI_API_KEY"%string) as [[|c key]|] eqn:Henv;
      try discriminate.
    exists (String c key). repeat split; [discriminate|right; reflexivity].
Qed.

(** C9. [createTranscription] uploads nothing: every request it sends is a
    POST to [/audio/transcriptions] of the client's base URL, announced as
    [application/json], whose data is a JSON object (not form data) with
    [file] set to the caller's URL string, [model], and [language] and
    [response_format] exactly when they were supplied. *)
Theorem transcription_sends_file_url (apiKey : option string) (env : Env)
    (this : OpenAIClient) (model fileUrl : string)
    (language responseFormat : option string) (server : Server) (w : World) :
  new_OpenAIClient apiKey env = Fulfilled this ->
  exists body,
    sends server
      (createTranscription this model fileUrl language responseFormat) w
      {| req_method := POST;
         req_baseURL := BASE_URL;
         req_url := "/audio/transcriptions";
         req_headers := default_headers (client this);
         req_data := JsonObject body;
         req_responseType := RtJson |} /\
    default_headers (client this) !! "Content-Type"%string
      = Some "application/json"%string /\
    body !! "file"%string = Some (JStr fileUrl) /\
    body !! "model"%string = Some (JStr model) /\
    body !! "language"%string = JStr <$> language /\
    body !! "response_format"%string = JStr <$> responseFormat /\
    dom body ⊆ ({[ "model"; "file"; "language"; "response_format" ]}
                  : gset string)%string.
Proof.
  intros Hnew.
  destruct (new_client_headers _ _ _ Hnew) as (Hbase & Hcontent & _).
  eexists. split; [|split; [exact Hcontent|]].
  - rewrite <- Hbase. unfold createTranscription, axios_post. cbv zeta.
    apply handleRequest_sends. auto with effects.
  - unfold assign_if_defined.
    destruct language, responseFormat; cbn [fmap option_fmap option_map];
      (repeat split; [by_computation..|]);
      rewrite ?dom_insert_L, dom_singleton_L; set_solver.
Qed.

Lemma transcription_sends_file_url_witness :
  new_OpenAIClient (Some "sk-test"%string) ∅ = Fulfilled Examples.a_client /\
  exists body,
    sends (Examples.answering 200 (JsonData JNull))
      (createTranscription Examples.a_client "whisper-1"
         "https://example.org/a.mp3" None None) Examples.fresh
      {| req_method := POST;
         req_baseURL := BASE_URL;
         req_url := "/audio/transcriptions";
         req_headers := default_headers (client Examples.a_client);
         req_data := JsonObject body;
         req_responseType := RtJson |} /\
    body !! "file"%string = Some (JStr "https://example.org/a.mp3").
Proof.
  split; [reflexivity|].
  destruct (transcription_sends_file_url (Some "sk-test"%string) ∅
              Examples.a_client "whisper-1" "https://example.org/a.mp3"
              None None (Examples.answering 200 (JsonData JNull))
              Examples.fresh eq_refl)
    as (body & Hsends & _ & Hfile & _).
  exists body. split; assumption.
Defined.

(** *** Construction *)

(** C8. Without an explicit credential and without [OPENAI_API_KEY] in the
    environment the constructor throws the configuration error, the server
    is not created, and a tool call that needs the client fails with that
    error in an unchanged world: nothing was sent and no timer was set.
    When either source supplies a credential (a non-empty string), the
    constructor succeeds. *)
Theorem credential_required (env : Env) :
  (env !! "OPENAI_API_KEY"%string = None ->
     new_OpenAIClient None env = Rejected missing_key_error /\
     createServer env = Rejected missing_key_error /\
     forall T (operation : OpenAIClient -> Prog T) server w,
       run server (with_client None env operation) w
       = (Rejected missing_key_error, w)) /\
  (forall apiKey key, key <> EmptyString ->
     apiKey = Some key \/ env !! "OPENAI_API_KEY"%string = Some key ->
     exists this, new_OpenAIClient apiKey env = Fulfilled this).
Proof.
  split.
  - intros Henv. unfold new_OpenAIClient, createServer, with_client.
    unfold new_OpenAIClient. cbn [falsy]. rewrite Henv. cbn [falsy].
    repeat split.
  - intros apiKey [|c key] Hkey Hsource; [congruence|].
    unfold new_OpenAIClient.
    destruct Hsource as [-> | Henv].
    + cbn [falsy]. eexists. reflexivity.
    + destruct apiKey as [[|c' key']|]; cbn [falsy]; rewrite ?Henv;
        cbn [falsy]; eexists; reflexivity.
Qed.

Lemma credential_required_witness :
  (∅ : Env) !! "OPENAI_API_KEY"%string = None /\
  new_OpenAIClient None ∅ = Rejected missing_key_error /\
  "sk-test"%string <> EmptyString /\
  exists this, new_OpenAIClient (Some "sk-test"%string) ∅ = Fulfilled this.
Proof.
  split; [reflexivity|]. split.
  - exact (proj1 (proj1 (credential_required ∅) eq_refl)).
  - split; [discriminate|].
    refine (proj2 (credential_required ∅) (Some "sk-test"%string)
              "sk-test"%string _ (or_introl eq_refl)).
    discriminate.
Defined.

(** An empty string is no credential: it is treated as absent. *)
Example empty_credential_is_absent :
  new_OpenAIClient (Some EmptyString) ∅ = Rejected missing_key_error /\
  new_OpenAIClient None {[ "OPENAI_API_KEY"%string := EmptyString ]}
    = Rejected missing_key_error.
Proof. split; reflexivity. Qed.

(** A server that was created always finds its client. *)
Lemma created_server_has_client (env : Env) (srv : McpServer) :
  createServer env = Fulfilled srv ->
  exists this, new_OpenAIClient (server_apiKey srv) env = Fulfilled this.
Proof.
  unfold createServer, new_OpenAIClient. intros Hsrv.
  destruct (env !! "OPENAI_API_KEY"%string) as [[|c key]|];
    try discriminate.
  injection Hsrv as <-. cbn [server_apiKey falsy]. eexists. reflexivity.
Qed.

(** *** Speech: the bytes survive the encoding *)

Lemma handleRequest_fulfilled {T} (server : Server) (request : Prog T)
    (retries : nat) (w w' : World) (a : T) :
  run server (handleRequest request retries) w = (Fulfilled a, w') ->
  exists w0, run server request w0 = (Fulfilled a, w').
Proof.
  revert w. induction retries as [|retries IH]; intros w;
    rewrite run_handleRequest;
    destruct (run server request (after_rateLimit w)) as [[a0|e] w1] eqn:Hrun;
    intros Hresult; try discriminate;
    try (injection Hresult as <- <-; exists (after_rateLimit w); exact Hrun).
  destruct (is_429 e); [|discriminate].
  exact (IH _ Hresult).
Qed.

(** C6. When the transport answers the speech request with a successful
    response carrying the bytes [bytes], [createSpeech] fulfils with the
    single-field structure [{ audio_base64 }], and decoding that string
    from base64 gives back exactly [bytes]. *)
Theorem speech_round_trip (this : OpenAIClient) (model input voice : string)
    (responseFormat : option string) (speed : option float)
    (server : Server) (w : World) (response : Response) (bytes : list byte) :
  (forall req, req_url req = "/audio/speech"%string ->
     answer (server (attempts w) req) = Some response) ->
  200 <= status response < 300 ->
  data response = BinaryData bytes ->
  exists result w',
    run server (createSpeech this model input voice responseFormat speed) w
    = (Fulfilled result, w') /\
    Base64.decode (audio_base64 result) = Some bytes.
Proof.
  intros Hserver [Hlo Hhi] Hdata.
  unfold createSpeech, axios_post. cbv zeta.
  rewrite run_handleRequest, run_await_axios. cbv zeta.
  rewrite attempts_after_rateLimit.
  unfold settle. rewrite Hserver by reflexivity.
  rewrite (proj2 (Z.leb_le _ _) Hlo), (proj2 (Z.ltb_lt _ _) Hhi).
  cbn [andb]. rewrite run_bind, Hdata. cbn [Buffer_from run].
  eexists _, _. split; [reflexivity|].
  cbn [audio_base64]. apply decode_encode.
Qed.

Lemma speech_round_trip_witness :
  exists result w',
    run (Examples.answering 200 (BinaryData [x01; x02; x03]%byte))
      (createSpeech Examples.a_client "tts-1" "hello" "alloy" None None)
      Examples.fresh
    = (Fulfilled result, w') /\
    Base64.decode (audio_base64 result) = Some [x01; x02; x03]%byte.
Proof.
  apply (speech_round_trip Examples.a_client "tts-1" "hello" "alloy" None
           None (Examples.answering 200 (BinaryData [x01; x02; x03]%byte))
           Examples.fresh
           {| status := 200; headers := ∅;
              data := BinaryData [x01; x02; x03]%byte |}).
  - intros req _. reflexivity.
  - cbn [status]. lia.
  - reflexivity.
Defined.

Example speech_of_three_bytes :
  (run (Examples.answering 200 (BinaryData [x01; x02; x03]%byte))
     (createSpeech Examples.a_client "tts-1" "hello" "alloy" None None)
     Examples.fresh).1
  = Fulfilled {| audio_base64 := "AQID" |}.
Proof. by_computation. Qed.

(** Whenever [createSpeech] fulfils, also after retries, its result
    decodes to the bytes of a response the server gave. *)
Lemma speech_result_decodes (this : OpenAIClient) (model input voice : string)
    (responseFormat : option string) (speed : option float)
    (server : Server) (w w' : World) (result : SpeechResponse) :
  run server (createSpeech this model input voice responseFormat speed) w
  = (Fulfilled result, w') ->
  exists n req response bytes,
    answer (server n req) = Some response /\
    req_responseType req = RtArrayBuffer /\
    data response = BinaryData bytes /\
    Base64.decode (audio_base64 result) = Some bytes.
Proof.
  unfold createSpeech, axios_post. cbv zeta. intros Hrun.
  apply handleRequest_fulfilled in Hrun as (w0 & Hrun).
  rewrite run_await_axios in Hrun. cbv zeta in Hrun.
  unfold settle in Hrun.
  destruct (answer (server (attempts w0) _)) as [response|] eqn:Hanswer;
    [|discriminate].
  destruct ((200 <=? status response) && (status response <? 300));
    [|discriminate].
  rewrite run_bind in Hrun.
  destruct (data response) as [v|bytes] eqn:Hdata; [discriminate|].
  cbn [Buffer_from run] in Hrun. injection Hrun as <- _.
  eexists _, _, response, bytes.
  split; [exact Hanswer|]. split; [reflexivity|]. split; [exact Hdata|].
  apply decode_encode.
Qed.

Lemma retry_bound_witness :
  always_429 (Examples.throttled None) /\
  attempts (run (Examples.throttled None)
              (handleRequest Examples.ping_call 2) Examples.fresh).2 = 3%nat /\
  sent_during (Examples.throttled None) (handleRequest Examples.ping_call 2)
    Examples.fresh = [Examples.ping; Examples.ping; Examples.ping].
Proof.
  assert (Hserver : always_429 (Examples.throttled None)).
  { intros n req. eexists. split; reflexivity. }
  split; [exact Hserver|].
  destruct (retry_bound (Examples.throttled None) Examples.ping
              (fun response => Return (data response)) 2 Examples.fresh
              Hserver) as (Hattempts & Hsent & _).
  split; [exact Hattempts|exact Hsent].
Defined.

(** *** Spacing of calls made one after the other *)

Lemma issue_times_after_request (req : HttpRequest) (r : Reply) (w : World) :
  issue_times (after_request req r w) = issue_times w ++ [clock w].
Proof.
  unfold issue_times. rewrite requests_after_request, fmap_app. reflexivity.
Qed.

Lemma spaced_snoc (times : list Z) (t : Z) :
  spaced times ->
  (forall t0, last times = Some t0 -> t0 + RATE_LIMIT_DELAY <= t) ->
  spaced (times ++ [t]).
Proof.
  intros Hspaced Hlast i a b Ha Hb.
  destruct (decide (S i < List.length times)%nat) as [Hin|Hout].
  - rewrite lookup_app_l in Ha by lia. rewrite lookup_app_l in Hb by lia.
    exact (Hspaced i a b Ha Hb).
  - pose proof (lookup_lt_Some _ _ _ Hb) as Hlen.
    rewrite length_app in Hlen. cbn [List.length] in Hlen.
    assert (Hi : S i = List.length times) by lia.
    rewrite lookup_app_r, <- Hi, Nat.sub_diag in Hb by lia.
    injection Hb as <-.
    rewrite lookup_app_l in Ha by lia.
    apply Hlast. rewrite last_lookup, <- Hi. exact Ha.
Qed.

(** [rateLimit] leaves the clock at least one interval after the recorded
    time of the previous request, and records the clock. *)
Lemma after_rateLimit_waits (w : World) :
  lastRequestTime w <= clock w ->
  lastRequestTime w + RATE_LIMIT_DELAY <= clock (after_rateLimit w) /\
  lastRequestTime (after_rateLimit w) = clock (after_rateLimit w) /\
  issue_times (after_rateLimit w) = issue_times w.
Proof.
  intros Hclock. unfold after_rateLimit, RATE_LIMIT_DELAY in *.
  destruct (Z.ltb_spec (clock w - lastRequestTime w) 100) as [Hsoon|Hlate];
    cbn [set_lastRequestTime after_timer clock lastRequestTime].
  - rewrite timer_delay_in_range by (unfold TIMEOUT_MAX; lia).
    repeat split. lia.
  - repeat split. lia.
Qed.

Lemma paced_after_attempt (req : HttpRequest) (r : Reply) (w : World) :
  paced w -> paced (after_request req r (after_rateLimit w)).
Proof.
  intros (Hclock & Hspaced & Hlast).
  destruct (after_rateLimit_waits w Hclock) as (Hwait & Hrecorded & Htimes).
  unfold paced. rewrite issue_times_after_request, Htimes.
  cbn [after_request clock lastRequestTime]. repeat split.
  - lia.
  - apply spaced_snoc; [assumption|].
    intros t0 Ht0. specialize (Hlast t0 Ht0). lia.
  - intros t. rewrite last_snoc. intros Ht.
    assert (t = clock (after_rateLimit w)) by congruence. lia.
Qed.

Lemma timer_delay_positive (ms : Z) : 1 <= timer_delay ms.
Proof.
  unfold timer_delay.
  destruct (Z.leb_spec 1 ms); cbn [andb]; [|lia].
  destruct (ms <=? TIMEOUT_MAX); lia.
Qed.

Lemma paced_after_timer (ms : Z) (w : World) :
  paced w -> paced (after_timer ms w).
Proof.
  intros (Hclock & Hspaced & Hlast). unfold paced.
  pose proof (timer_delay_positive ms).
  cbn [after_timer clock lastRequestTime]. repeat split; [lia|..]; assumption.
Qed.

Lemma handleRequest_paced {T} (server : Server) (req : HttpRequest)
    (k : Response -> Prog T) (retries : nat) (w : World) :
  effect_free k -> paced w ->
  paced (run server (handleRequest (T:=T) (await_axios req ≫= k) retries)
           w).2.
Proof.
  intros Hk. revert w.
  induction retries as [|retries IH]; intros w Hpaced;
    rewrite run_handleRequest;
    pose proof (run_single_call_world server req k (after_rateLimit w) Hk)
      as Hworld;
    destruct (run server (await_axios req ≫= k) (after_rateLimit w))
      as [[a|e] w1]; cbn [snd] in Hworld; subst w1;
    try (apply paced_after_attempt; assumption).
  destruct (is_429 e).
  - apply IH, paced_after_timer, paced_after_attempt. assumption.
  - apply paced_after_attempt. assumption.
Qed.

(** X5. Calls made one after the other, each awaited before the next starts,
    keep every pair of consecutive requests (first attempts and retries
    alike) at least [RATE_LIMIT_DELAY] apart. *)
Theorem sequential_calls_are_spaced {T} (server : Server)
    (calls : list (N * Prog T)) (w : World) :
  paced w ->
  Forall (fun call => single_request_call call.2) calls ->
  paced (run_all server calls w).2.
Proof.
  revert w. induction calls as [|[idle p] calls IH]; intros w Hpaced Hcalls.
  - exact Hpaced.
  - apply Forall_cons in Hcalls as [Hcall Hcalls].
    cbn [snd] in Hcall.
    destruct Hcall as (req & k & retries & Hk & ->).
    cbn [run_all].
    set (w0 := {| clock := clock w + Z.of_N idle;
                  lastRequestTime := lastRequestTime w; log := log w |}).
    assert (Hw0 : paced w0).
    { destruct Hpaced as (Hclock & Hspaced & Hlast).
      unfold paced, w0. cbn [clock lastRequestTime]. repeat split;
        [lia|assumption..]. }
    pose proof (handleRequest_paced server req k retries w0 Hk Hw0) as Hnext.
    destruct (run server (handleRequest (await_axios req ≫= k) retries) w0)
      as [o w1].
    specialize (IH w1 Hnext Hcalls).
    destruct (run_all server calls w1) as [os w2]. exact IH.
Qed.

Lemma fresh_world_is_paced (now : Z) :
  0 <= now -> paced {| clock := now; lastRequestTime := 0; log := [] |}.
Proof.
  intros Hnow. repeat split; [exact Hnow|..].
  - intros i a b Ha. discriminate.
  - intros t Ht. discriminate.
Qed.

(** *** Calls that overlap *)

(** C2, evaluated where the code falls short of it. Three calls that
    overlap on a client that has sent nothing yet, the second started 10 ms
    and the third 30 ms after the first.  The first is sent at once; the
    other two each find the recorded time too recent and wait for the rest
    of the same interval, so they wake together and are both sent 100 ms
    after the first: the second and third requests are 0 ms apart.  All
    three calls settle, and the spacing check did run before each
    request (the two timers in the log). *)
Theorem overlapping_calls_break_spacing :
  (event_loop 16 Examples.ok_server Examples.overlapping_calls
     Examples.fresh).1
  = [Settled (Fulfilled (JsonData (JArr [])));
     Settled (Fulfilled (JsonData (JArr [])));
     Settled (Fulfilled (JsonData (JArr [])))] /\
  timers (event_loop 16 Examples.ok_server Examples.overlapping_calls
            Examples.fresh).2
  = [(clock Examples.fresh + 10, 90); (clock Examples.fresh + 30, 70)] /\
  issue_times (event_loop 16 Examples.ok_server Examples.overlapping_calls
                 Examples.fresh).2
  = [clock Examples.fresh;
     clock Examples.fresh + 100;
     clock Examples.fresh + 100] /\
  ~ spaced (issue_times (event_loop 16 Examples.ok_server
                           Examples.overlapping_calls Examples.fresh).2).
Proof.
  assert (Htimes :
    issue_times (event_loop 16 Examples.ok_server Examples.overlapping_calls
                   Examples.fresh).2
    = [clock Examples.fresh;
       clock Examples.fresh + 100;
       clock Examples.fresh + 100]) by by_computation.
  split; [by_computation|]. split; [by_computation|].
  split; [exact Htimes|].
  rewrite Htimes. intros Hspaced.
  specialize (Hspaced 1%nat _ _ eq_refl eq_refl).
  unfold RATE_LIMIT_DELAY in Hspaced. lia.
Qed.

(** The same three calls made one after the other are 100 ms apart. *)
Example sequential_calls_example :
  issue_times (run_all Examples.ok_server Examples.sequential_calls
                 Examples.fresh).2
  = [clock Examples.fresh;
     clock Examples.fresh + 100;
     clock Examples.fresh + 200].
Proof. by_computation. Qed.

(** *** The event loop agrees with [run] on a call that runs alone *)

Lemma event_loop_settled {A} (fuel : nat) (server : Server) (o : Outcome A)
    (w : World) :
  event_loop fuel server [Settled o] w = ([Settled o], w).
Proof. destruct fuel; reflexivity. Qed.

Lemma event_loop_single_call {A} (server : Server) (p : Prog A) (w : World) :
  exists n, forall fuel, (n <= fuel)%nat ->
    event_loop fuel server [Ready p] w
    = ([Settled (run server p w).1], (run server p w).2).
Proof.
  revert w. induction p as [a|e|k IH|k IH|t k IH|ms k IH|req k IH]; intros w.
  - exists 1%nat. intros [|fuel] Hfuel; [lia|].
    cbn [event_loop first_ready advance run fst snd].
    apply event_loop_settled.
  - exists 1%nat. intros [|fuel] Hfuel; [lia|].
    cbn [event_loop first_ready advance run fst snd].
    apply event_loop_settled.
  - destruct (IH (clock w) w) as [n Hn]. exists (S n).
    intros [|fuel] Hfuel; [lia|].
    specialize (Hn (S fuel) ltac:(lia)). exact Hn.
  - destruct (IH (lastRequestTime w) w) as [n Hn]. exists (S n).
    intros [|fuel] Hfuel; [lia|].
    specialize (Hn (S fuel) ltac:(lia)). exact Hn.
  - destruct (IH (set_lastRequestTime t w)) as [n Hn]. exists (S n).
    intros [|fuel] Hfuel; [lia|].
    specialize (Hn (S fuel) ltac:(lia)). exact Hn.
  - destruct (IH (after_timer ms w)) as [n Hn]. exists (S (S n)).
    intros [|[|fuel]] Hfuel; [lia..|].
    specialize (Hn fuel ltac:(lia)).
    cbn [event_loop first_ready advance run list_insert insert].
    cbn [first_ready earliest due_time fmap option_fmap option_map alter
         list_alter resume clock lastRequestTime log].
    pose proof (timer_delay_positive ms).
    rewrite Z.max_r by lia. exact Hn.
  - destruct (IH (settle (server (attempts w) req))
                (after_request req (server (attempts w) req) w)) as [n Hn].
    exists (S (S n)).
    intros [|[|fuel]] Hfuel; [lia..|].
    specialize (Hn fuel ltac:(lia)).
    cbn [event_loop first_ready advance run list_insert insert].
    cbv zeta.
    cbn [first_ready earliest due_time fmap option_fmap option_map alter
         list_alter resume clock lastRequestTime log].
    rewrite Z.max_r by lia. exact Hn.
Qed.

(** *** Further facts about the operations and the server *)

(** With the default budget of three retries, an operation that is always
    throttled sends its request four times. *)
Lemma default_budget_sends_four {T} (server : Server) (req : HttpRequest)
    (k : Response -> Prog T) (w : World) :
  always_429 server ->
  sent_during server
    (handleRequest (T:=T) (await_axios req ≫= k) default_retries) w
  = [req; req; req; req].
Proof.
  intros Hserver.
  destruct (run_handleRequest_always_429 server req k default_retries w
              Hserver) as [Hreq _].
  unfold sent_during. rewrite fmap_drop, Hreq. unfold attempts.
  rewrite <- (length_fmap snd (requests w)), drop_app_length.
  reflexivity.
Qed.

Example listModels_throttled (this : OpenAIClient) (server : Server)
    (w : World) :
  always_429 server ->
  sent_during server (listModels this) w
  = replicate 4 (get_request (client this) "/models").
Proof. apply default_budget_sends_four. Qed.

(** The sandbox server supplies a placeholder key when the environment has
    none, and is then always created. *)
Lemma createSandboxServer_without_key (env : Env) :
  env !! "OPENAI_API_KEY"%string = None ->
  exists srv, (createSandboxServer env).1 = Fulfilled srv /\
    server_apiKey srv = Some "sandbox-api-key"%string.
Proof.
  intros Henv. unfold createSandboxServer. rewrite Henv. cbn [fst].
  unfold createServer. eexists.
  rewrite !lookup_insert_eq. cbn [falsy]. split; reflexivity.
Qed.

(* ===================================================================== *)
(** ** More about the dispatcher *)
(* ===================================================================== *)

Lemma sent_during_requests {A} (server : Server) (p : Prog A) (w : World)
    (sent : list HttpRequest) :
  (requests (run server p w).2).*2 = (requests w).*2 ++ sent ->
  sent_during server p w = sent.
Proof.
  intros Hreq. unfold sent_during. rewrite fmap_drop, Hreq. unfold attempts.
  rewrite <- (length_fmap snd (requests w)), drop_app_length. reflexivity.
Qed.





(** X2. Whatever the server answers, a call with retry budget [R] sends
    its request at least once and at most [R + 1] times, and sends nothing
    else. *)
Theorem attempts_within_budget {T} (server : Server) (req : HttpRequest)
    (k : Response -> Prog T) (retries : nat) (w : World) :
  effect_free k ->
  exists n, (1 <= n <= retries + 1)%nat /\
    sent_during server
      (handleRequest (T:=T) (await_axios req ≫= k) retries) w
    = replicate n req.
Proof.
  intros Hk.
  destruct (handleRequest_requests server req k retries w Hk)
    as (n & Hn & Hreq).
  exists n. split; [lia|]. apply sent_during_requests. exact Hreq.
Qed.

Lemma attempts_within_budget_witness :
  exists n, (1 <= n <= 3 + 1)%nat /\
    sent_during (Scenarios.flaky 1) (handleRequest Examples.ping_call 3)
      Examples.fresh
    = replicate n Examples.ping.
Proof.
  apply (attempts_within_budget (Scenarios.flaky 1) Examples.ping
           (fun response => Return (data response)) 3 Examples.fresh).
  apply effect_free_data.
Defined.



(** X4. A [retry-after] value that is negative or exceeds 2147483 seconds
    does not delay the retry: the timer asked for is outside what
    [setTimeout] takes and runs for 1 ms, after which the next attempt
    starts. *)
Theorem retry_after_out_of_range {T} (server : Server) (request : Prog T)
    (retries : nat) (w w' : World) (error : JsError) (n : Z) :
  run server request (after_rateLimit w) = (Rejected error, w') ->
  is_429 error = true ->
  ParseInt.parseInt (response_header error "retry-after") = Int n ->
  n < 0 \/ 2147483 < n ->
  exists resumed,
    run server (handleRequest request (S retries)) w =
      run server (handleRequest request retries) resumed /\
    timers resumed = timers w' ++ [(clock w', n * 1000)] /\
    clock resumed = clock w' + 1.
Proof.
  intros Hrun Hkind Hparse Hrange.
  exists (after_timer (retry_delay error) w').
  assert (Hdelay : retry_delay error = n * 1000).
  { unfold retry_delay. rewrite Hparse. cbn [number_or].
    destruct (Z.eqb_spec n 0); [lia|reflexivity]. }
  split; [apply run_handleRequest_retry; assumption|].
  rewrite timers_after_timer, Hdelay. split; [reflexivity|].
  cbn [after_timer clock]. f_equal. unfold timer_delay, TIMEOUT_MAX.
  destruct (Z.leb_spec 1 (n * 1000)); cbn [andb]; [|reflexivity].
  destruct (Z.leb_spec (n * 1000) 2147483647); [lia|reflexivity].
Qed.

Lemma retry_after_out_of_range_witness :
  exists resumed,
    run (Examples.throttled (Some "-5"%string))
      (handleRequest Examples.ping_call 1) Examples.fresh
    = run (Examples.throttled (Some "-5"%string))
        (handleRequest Examples.ping_call 0) resumed /\
    timers resumed = [(clock Examples.fresh + 20, -5 * 1000)] /\
    clock resumed = clock Examples.fresh + 20 + 1.
Proof.
  refine (retry_after_out_of_range (Examples.throttled (Some "-5"%string))
            Examples.ping_call 0 Examples.fresh
            (after_request Examples.ping
               (Examples.throttled (Some "-5"%string) O Examples.ping)
               (after_rateLimit Examples.fresh))
            (AxiosError
               (Some (Examples.throttling_response (Some "-5"%string))))
            (-5) _ _ _ _).
  - reflexivity.
  - reflexivity.
  - by_computation.
  - lia.
Defined.

Lemma sequential_calls_are_spaced_witness :
  paced (run_all Examples.ok_server Examples.sequential_calls
           Examples.fresh).2.
Proof.
  apply (sequential_calls_are_spaced Examples.ok_server
           Examples.sequential_calls Examples.fresh).
  - apply fresh_world_is_paced. vm_compute. discriminate.
  - repeat apply Forall_cons_2; try apply Forall_nil_2;
      (eexists _, _, _; split; [apply effect_free_data|reflexivity]).
Defined.

(* ===================================================================== *)
(** ** The tool handlers *)
(* ===================================================================== *)

Lemma run_bind_return {A B} (server : Server) (p : Prog A) (f : A -> B)
    (w : World) :
  run server (p ≫= fun a => Return (f a)) w =
  (match (run server p w).1 with
   | Fulfilled a => Fulfilled (f a)
   | Rejected e => Rejected e
   end, (run server p w).2).
Proof.
  rewrite run_bind. destruct (run server p w) as [[a|e] w']; reflexivity.
Qed.

Lemma sent_during_bind_return {A B} (server : Server) (p : Prog A)
    (f : A -> B) (w : World) :
  sent_during server (p ≫= fun a => Return (f a)) w = sent_during server p w.
Proof. unfold sent_during. rewrite run_bind_return. reflexivity. Qed.

(** Every operation behind a tool is [handleRequest] with the default
    budget around one request of the client's axios instance, followed by
    effect-free decoding and [JSON.stringify]. *)
Lemma operation_shape (stringify : forall A : Type, A -> string)
    (this : OpenAIClient) (call : ToolCall) :
  exists (A : Type) (req : HttpRequest) (k : Response -> Prog A)
         (f : A -> string),
    operation stringify this call
    = (handleRequest (await_axios req ≫= k) default_retries
         ≫= fun result => Return (f result)) /\
    effect_free k /\
    req_baseURL req = baseURL (client this) /\
    req_headers req = default_headers (client this).
Proof.
  destruct call; do 4 eexists;
    (split; [reflexivity|]); (split; [auto with effects|]);
    split; reflexivity.
Qed.

(** Which key the constructor puts into the [Authorization] header. *)
Lemma new_client_key (apiKey : option string) (env : Env)
    (this : OpenAIClient) :
  new_OpenAIClient apiKey env = Fulfilled this ->
  exists key, key <> EmptyString /\
    (if falsy apiKey then env !! "OPENAI_API_KEY"%string else apiKey)
    = Some key /\
    this = {| client := {|
      baseURL := BASE_URL;
      default_headers :=
        {[ "Authorization"%string := ("Bearer " ++ key)%string;
           "Content-Type"%string := "application/json"%string ]} |} |}.
Proof.
  unfold new_OpenAIClient. cbv zeta.
  destruct (if falsy apiKey then env !! "OPENAI_API_KEY"%string else apiKey)
    as [[|c key]|]; cbn [falsy]; intros Hnew; try discriminate.
  injection Hnew as <-. exists (String c key).
  split; [discriminate|]. split; reflexivity.
Qed.

(** X6. Every request that any tool's operation sends through a client
    the constructor made goes to the fixed base URL, is announced as JSON,
    and carries [Authorization: Bearer key], where [key] is the explicit
    argument when that is a non-empty string and the environment's
    [OPENAI_API_KEY] otherwise. *)
Theorem every_request_is_authorized
    (stringify : forall A : Type, A -> string) (apiKey : option string)
    (env : Env) (this : OpenAIClient) (call : ToolCall) (server : Server)
    (w : World) :
  new_OpenAIClient apiKey env = Fulfilled this ->
  exists key,
    key <> EmptyString /\
    (if falsy apiKey then env !! "OPENAI_API_KEY"%string else apiKey)
    = Some key /\
    sent_during server (operation stringify this call) w <> [] /\
    Forall (fun req =>
              req_baseURL req = BASE_URL /\
              req_headers req !! "Authorization"%string
              = Some ("Bearer " ++ key)%string /\
              req_headers req !! "Content-Type"%string
              = Some "application/json"%string)
      (sent_during server (operation stringify this call) w).
Proof.
  intros Hnew.
  destruct (new_client_key _ _ _ Hnew) as (key & Hkey & Hsource & Hthis).
  exists key. split; [exact Hkey|]. split; [exact Hsource|].
  destruct (operation_shape stringify this call)
    as (A & req & k & f & -> & Hk & Hbase & Hheaders).
  rewrite sent_during_bind_return.
  destruct (handleRequest_sends server req k default_retries w Hk)
    as (n & Hn & ->).
  split.
  - destruct n; [lia|discriminate].
  - apply Forall_replicate. rewrite Hbase, Hheaders, Hthis.
    cbn [client baseURL default_headers]. repeat split.
Qed.

Lemma every_request_is_authorized_witness :
  exists key,
    key <> EmptyString /\
    Some "sk-explicit"%string = Some key /\
    sent_during Examples.ok_server
      (operation Scenarios.stringify
         {| client := {|
              baseURL := BASE_URL;
              default_headers :=
                {[ "Authorization"%string := "Bearer sk-explicit"%string;
                   "Content-Type"%string := "application/json"%string ]}
            |} |}
         openai_list_models) Examples.fresh <> [] /\
    Forall (fun req =>
              req_baseURL req = BASE_URL /\
              req_headers req !! "Authorization"%string
              = Some ("Bearer " ++ key)%string /\
              req_headers req !! "Content-Type"%string
              = Some "application/json"%string)
      (sent_during Examples.ok_server
         (operation Scenarios.stringify
            {| client := {|
                 baseURL := BASE_URL;
                 default_headers :=
                   {[ "Authorization"%string := "Bearer sk-explicit"%string;
                      "Content-Type"%string := "application/json"%string ]}
               |} |}
            openai_list_models) Examples.fresh).
Proof.
  exact (every_request_is_authorized Scenarios.stringify
           (Some "sk-explicit"%string)
           {[ "OPENAI_API_KEY"%string := "sk-environment"%string ]}
           _ openai_list_models Examples.ok_server Examples.fresh eq_refl).
Defined.

Lemma run_tool_handler (stringify : forall A : Type, A -> string)
    (message_of : option Response -> string) (apiKey : option string)
    (env : Env) (_client : option OpenAIClient) (call : ToolCall)
    (server : Server) (w : World) :
  run server (tool_handler stringify message_of apiKey env _client call).1 w
  = match (getClient apiKey env _client).1 with
    | Fulfilled this =>
        match run server (operation stringify this call) w with
        | (Fulfilled text, w') =>
            (Fulfilled {| content := [TextContent text]; isError := None |},
             w')
        | (Rejected error, w') =>
            (Fulfilled (errorResult message_of error), w')
        end
    | Rejected error => (Fulfilled (errorResult message_of error), w)
    end.
Proof.
  unfold tool_handler.
  destruct (getClient apiKey env _client) as [[this|error] _client'];
    cbn [fst]; rewrite run_try_catch, run_bind.
  - destruct (run server (operation stringify this call) w) as [[text|e] w'];
      reflexivity.
  - reflexivity.
Qed.

(** X7. A tool handler never throws.  When the client is there and the
    operation fulfils, it returns the stringified result as one text item,
    without [isError]; when the client cannot be built or the operation
    rejects, it returns [errorResult] of that error instead.  Either way
    the handler sends nothing and awaits nothing beyond what the
    operation did. *)
Theorem tool_handler_never_throws
    (stringify : forall A : Type, A -> string)
    (message_of : option Response -> string) (apiKey : option string)
    (env : Env) (_client : option OpenAIClient) (call : ToolCall)
    (server : Server) (w : World) :
  let attempted :=
    match (getClient apiKey env _client).1 with
    | Fulfilled this => run server (operation stringify this call) w
    | Rejected error => (Rejected error, w)
    end in
  run server (tool_handler stringify message_of apiKey env _client call).1 w
  = (Fulfilled
       match attempted.1 with
       | Fulfilled text =>
           {| content := [TextContent text]; isError := None |}
       | Rejected error =>
           {| content :=
                [TextContent
                   ("Error: " ++ error_message message_of error)%string];
              isError := Some true |}
       end,
     attempted.2).
Proof.
  cbv zeta. rewrite run_tool_handler.
  destruct (getClient apiKey env _client).1 as [this|error]; [|reflexivity].
  destruct (run server (operation stringify this call) w) as [[text|e] w'];
    reflexivity.
Qed.

(** X8. Without a credential (no explicit key, none in the environment,
    no client made earlier) every tool call answers with the text
    ["Error: OPENAI_API_KEY environment variable is required"] and
    [isError: true], sends nothing, sets no timer, and leaves no client
    behind, so the next call tries to build one again. *)
Theorem tool_call_without_credential
    (stringify : forall A : Type, A -> string)
    (message_of : option Response -> string) (apiKey : option string)
    (env : Env) (call : ToolCall) (server : Server) (w : World) :
  falsy apiKey = true ->
  falsy (env !! "OPENAI_API_KEY"%string) = true ->
  run server (tool_handler stringify message_of apiKey env None call).1 w
  = (Fulfilled
       {| content :=
            [TextContent
               "Error: OPENAI_API_KEY environment variable is required"];
          isError := Some true |}, w) /\
  (tool_handler stringify message_of apiKey env None call).2 = None.
Proof.
  intros HapiKey Henv.
  assert (Hnew : new_OpenAIClient apiKey env = Rejected missing_key_error).
  { unfold new_OpenAIClient. cbv zeta. rewrite HapiKey, Henv. reflexivity. }
  unfold tool_handler, getClient. rewrite Hnew. split; reflexivity.
Qed.

Lemma tool_call_without_credential_witness :
  run Examples.ok_server
    (tool_handler Scenarios.stringify Scenarios.message_of None ∅ None
       openai_list_models).1 Examples.fresh
  = (Fulfilled
       {| content :=
            [TextContent
               "Error: OPENAI_API_KEY environment variable is required"];
          isError := Some true |}, Examples.fresh) /\
  (tool_handler Scenarios.stringify Scenarios.message_of None ∅ None
     openai_list_models).2 = None.
Proof.
  exact (tool_call_without_credential Scenarios.stringify
           Scenarios.message_of None ∅ openai_list_models Examples.ok_server
           Examples.fresh eq_refl eq_refl).
Defined.

Lemma operation_paced (stringify : forall A : Type, A -> string)
    (this : OpenAIClient) (call : ToolCall) (server : Server) (w : World) :
  paced w -> paced (run server (operation stringify this call) w).2.
Proof.
  intros Hpaced.
  destruct (operation_shape stringify this call)
    as (A & req & k & f & -> & Hk & _).
  rewrite run_bind_return. cbn [snd].
  apply handleRequest_paced; assumption.
Qed.

Lemma tool_handler_paced (stringify : forall A : Type, A -> string)
    (message_of : option Response -> string) (apiKey : option string)
    (env : Env) (_client : option OpenAIClient) (call : ToolCall)
    (server : Server) (w : World) :
  paced w ->
  paced (run server
           (tool_handler stringify message_of apiKey env _client call).1 w).2.
Proof.
  intros Hpaced. rewrite run_tool_handler.
  destruct (getClient apiKey env _client).1 as [this|error]; [|exact Hpaced].
  pose proof (operation_paced stringify this call server w Hpaced) as Hop.
  destruct (run server (operation stringify this call) w) as [[text|e] w'];
    exact Hop.
Qed.

(** X9. Tool invocations handled one after the other, whichever tools
    they are and whether they succeed, fail or find no credential, keep
    all requests of the server at least 100 ms apart. *)
Theorem tool_calls_are_spaced (stringify : forall A : Type, A -> string)
    (message_of : option Response -> string) (server : Server)
    (apiKey : option string) (env : Env) (calls : list (N * ToolCall))
    (_client : option OpenAIClient) (w : World) :
  paced w ->
  paced (serve stringify message_of server apiKey env calls _client w).2 /\
  spaced (issue_times
            (serve stringify message_of server apiKey env calls _client w).2).
Proof.
  intros Hpaced.
  enough (Hgoal :
    paced (serve stringify message_of server apiKey env calls _client w).2)
    by (split; [exact Hgoal|apply Hgoal]).
  revert _client w Hpaced.
  induction calls as [|[idle call] calls IH]; intros _client w Hpaced.
  - exact Hpaced.
  - cbn [serve].
    set (w0 := {| clock := clock w + Z.of_N idle;
                  lastRequestTime := lastRequestTime w; log := log w |}).
    assert (Hw0 : paced w0).
    { destruct Hpaced as (Hclock & Hspaced & Hlast).
      unfold paced, w0. cbn [clock lastRequestTime]. repeat split;
        [lia|assumption..]. }
    pose proof (tool_handler_paced stringify message_of apiKey env _client
                  call server w0 Hw0) as Hnext.
    destruct (tool_handler stringify message_of apiKey env _client call)
      as [handler _client'].
    cbn [fst] in Hnext.
    destruct (run server handler w0) as [o w1]. cbn [snd] in Hnext.
    specialize (IH _client' w1 Hnext).
    destruct (serve stringify message_of server apiKey env calls _client' w1)
      as [[os _client''] w2].
    exact IH.
Qed.

Lemma tool_calls_are_spaced_witness :
  paced (serve Scenarios.stringify Scenarios.message_of (Scenarios.flaky 1)
           (Some "sk-test"%string) ∅ Scenarios.tool_calls None
           Examples.fresh).2 /\
  spaced (issue_times
            (serve Scenarios.stringify Scenarios.message_of
               (Scenarios.flaky 1) (Some "sk-test"%string) ∅
               Scenarios.tool_calls None Examples.fresh).2).
Proof.
  apply (tool_calls_are_spaced Scenarios.stringify Scenarios.message_of
           (Scenarios.flaky 1) (Some "sk-test"%string) ∅
           Scenarios.tool_calls None Examples.fresh).
  apply fresh_world_is_paced. vm_compute. discriminate.
Defined.

Example tool_calls_example :
  issue_times
    (serve Scenarios.stringify Scenarios.message_of (Scenarios.flaky 1)
       (Some "sk-test"%string) ∅ Scenarios.tool_calls None
       Examples.fresh).2
  = [1700000000000; 1700000001020; 1700000001120; 1700000001220].
Proof. by_computation. Qed.

(** X10. A tool call that is always throttled sends its request four
    times (the default budget of three retries) and then reports the
    error of the last 429 reply as text, with [isError: true]. *)
Theorem throttled_tool_call (stringify : forall A : Type, A -> string)
    (message_of : option Response -> string) (apiKey : option string)
    (env : Env) (this : OpenAIClient) (call : ToolCall) (server : Server)
    (w : World) :
  always_429 server ->
  exists req final,
    sent_during server
      (tool_handler stringify message_of apiKey env (Some this) call).1 w
    = [req; req; req; req] /\
    answer (server (attempts w + 3)%nat req) = Some final /\
    status final = 429 /\
    (run server
       (tool_handler stringify message_of apiKey env (Some this) call).1 w).1
    = Fulfilled
        {| content :=
             [TextContent ("Error: " ++ message_of (Some final))%string];
           isError := Some true |}.
Proof.
  intros Hserver.
  destruct (operation_shape stringify this call)
    as (A & req & k & f & Hshape & Hk & _).
  destruct (run_handleRequest_always_429 server req k default_retries w
              Hserver) as [Hreq Herr].
  cbv zeta in Hreq, Herr.
  destruct (Hserver (attempts w + 3)%nat req) as (final & Hanswer & Hstatus).
  exists req, final.
  assert (Hrun :
    run server (operation stringify this call) w
    = (Rejected (AxiosError (Some final)),
       (run server (handleRequest (await_axios req ≫= k) default_retries)
          w).2)).
  { rewrite Hshape, run_bind_return, Herr.
    unfold default_retries. rewrite Hanswer. reflexivity. }
  split; [|split; [exact Hanswer|split; [exact Hstatus|]]].
  - apply sent_during_requests.
    rewrite run_tool_handler. cbn [getClient fst]. rewrite Hrun.
    cbn [snd]. exact Hreq.
  - rewrite run_tool_handler. cbn [getClient fst]. rewrite Hrun.
    reflexivity.
Qed.

Lemma throttled_tool_call_witness :
  exists req final,
    sent_during (Examples.throttled None)
      (tool_handler Scenarios.stringify Scenarios.message_of None ∅
         (Some Examples.a_client) openai_list_models).1 Examples.fresh
    = [req; req; req; req] /\
    answer (Examples.throttled None (attempts Examples.fresh + 3)%nat req)
    = Some final /\
    status final = 429 /\
    (run (Examples.throttled None)
       (tool_handler Scenarios.stringify Scenarios.message_of None ∅
          (Some Examples.a_client) openai_list_models).1 Examples.fresh).1
    = Fulfilled
        {| content :=
             [TextContent
                ("Error: " ++ Scenarios.message_of (Some final))%string];
           isError := Some true |}.
Proof.
  apply (throttled_tool_call Scenarios.stringify Scenarios.message_of None ∅
           Examples.a_client openai_list_models (Examples.throttled None)
           Examples.fresh).
  intros n req. eexists. split; reflexivity.
Defined.

(** X11. The client is built at most once.  Once [getClient] has made or
    found a client, every later call returns that same client whatever key
    and environment it is given; a construction that fails is always the
    missing-key error and leaves nothing behind. *)
Theorem getClient_builds_once (apiKey apiKey' : option string)
    (env env' : Env) (_client : option OpenAIClient) :
  match getClient apiKey env _client with
  | (Fulfilled this, _client') =>
      _client' = Some this /\
      getClient apiKey' env' _client' = (Fulfilled this, _client')
  | (Rejected error, _client') =>
      _client = None /\ _client' = None /\ error = missing_key_error
  end.
Proof.
  unfold getClient. destruct _client as [this|].
  - split; reflexivity.
  - unfold new_OpenAIClient. cbv zeta.
    destruct (falsy _); repeat split.
Qed.

(** X12. Image generation drops an empty model string: called with
    [model] the empty string it sends the default ["dall-e-3"], like a call
    without [model], whereas moderation forwards an empty [model] string
    as it is. *)
Theorem empty_model_string (this : OpenAIClient) (server : Server)
    (w : World) :
  (forall prompt size quality n,
     sends server
       (createImage this prompt (Some EmptyString) size quality n) w
       (post_request (client this) "/images/generations"
          (spec_body
             [("prompt", JStr prompt); ("model", JStr "dall-e-3")]
             [("size", JStr <$> size);
              ("quality", JStr <$> quality);
              ("n", JNum <$> n)]%string)
          RtJson)) /\
  (forall input,
     sends server (moderateContent this input (Some EmptyString)) w
       (post_request (client this) "/moderations"
          (spec_body
             [("input", JStr input)]
             [("model", Some (JStr EmptyString))]%string)
          RtJson)).
Proof.
  split.
  - unfold createImage. operation_sends. 
  - unfold moderateContent. operation_sends.
Qed.

(** X13. A [retry-after] header that starts with a letter, as an HTTP
    date does, is not understood: the retry comes after the default of one
    second. *)
Theorem retry_after_date_waits_default {T} (server : Server)
    (request : Prog T) (retries : nat) (w w' : World) (error : JsError)
    (c : ascii) (rest : string) :
  run server request (after_rateLimit w) = (Rejected error, w') ->
  is_429 error = true ->
  response_header error "retry-after" = Some (String c rest) ->
  (65 <= N_of_ascii c <= 90 \/ 97 <= N_of_ascii c <= 122)%N ->
  exists resumed,
    run server (handleRequest request (S retries)) w =
      run server (handleRequest request retries) resumed /\
    timers resumed = timers w' ++ [(clock w', 1000)] /\
    clock resumed = clock w' + 1000.
Proof.
  intros Hrun Hkind Hheader Hletter.
  exists (after_timer (retry_delay error) w').
  assert (Hdelay : retry_delay error = 1000).
  { unfold retry_delay. rewrite Hheader. clear Hheader Hrun Hkind.
    destruct c as [[] [] [] [] [] [] [] []];
      cbn [N_of_ascii N_of_digits N.add N.mul] in Hletter;
      first [ exfalso; lia | reflexivity ]. }
  split; [apply run_handleRequest_retry; assumption|].
  rewrite timers_after_timer, Hdelay. split; reflexivity.
Qed.

Lemma retry_after_date_waits_default_witness :
  exists resumed,
    run (Examples.throttled (Some "Wed, 21 Oct 2026 07:28:00 GMT"%string))
      (handleRequest Examples.ping_call 1) Examples.fresh
    = run (Examples.throttled (Some "Wed, 21 Oct 2026 07:28:00 GMT"%string))
        (handleRequest Examples.ping_call 0) resumed /\
    timers resumed = [(clock Examples.fresh + 20, 1000)] /\
    clock resumed = clock Examples.fresh + 20 + 1000.
Proof.
  refine (retry_after_date_waits_default
            (Examples.throttled (Some "Wed, 21 Oct 2026 07:28:00 GMT"%string))
            Examples.ping_call 0 Examples.fresh
            (after_request Examples.ping
               (Examples.throttled
                  (Some "Wed, 21 Oct 2026 07:28:00 GMT"%string) O
                  Examples.ping)
               (after_rateLimit Examples.fresh))
            (AxiosError
               (Some (Examples.throttling_response
                        (Some "Wed, 21 Oct 2026 07:28:00 GMT"%string))))
            "W"%char "ed, 21 Oct 2026 07:28:00 GMT"%string _ _ _ _).
  - reflexivity.
  - reflexivity.
  - by_computation.
  - left. vm_compute. split; discriminate.
Defined.

(* ===================================================================== *)
(** ** Starting the server *)
(* ===================================================================== *)

(** X14. The sandbox server fills in ["sandbox-api-key"] only when
    [OPENAI_API_KEY] is not set at all.  It is created exactly when the
    variable is unset or non-empty; a variable that is set but empty is
    left alone and the server is refused like by [createServer]. *)
Theorem sandbox_server_key (env : Env) :
  (createSandboxServer env).2 !! "OPENAI_API_KEY"%string
  = Some (default "sandbox-api-key"%string
            (env !! "OPENAI_API_KEY"%string)) /\
  (env !! "OPENAI_API_KEY"%string = Some EmptyString ->
     (createSandboxServer env).1 = Rejected missing_key_error) /\
  (env !! "OPENAI_API_KEY"%string <> Some EmptyString ->
     exists srv,
       (createSandboxServer env).1 = Fulfilled srv /\
       server_apiKey srv
       = Some (default "sandbox-api-key"%string
                 (env !! "OPENAI_API_KEY"%string))).
Proof.
  unfold createSandboxServer, createServer. cbv zeta. cbn [fst snd].
  destruct (env !! "OPENAI_API_KEY"%string) as [[|c key]|] eqn:Henv.
  - rewrite Henv. cbn [falsy default]. repeat split; congruence.
  - rewrite Henv. cbn [falsy default]. repeat split; [discriminate|].
    intros _. eexists. split; reflexivity.
  - rewrite !lookup_insert_eq. cbn [falsy default].
    repeat split; [discriminate|]. intros _. eexists. split; reflexivity.
Qed.

(** X15. A server that started keeps the key it started with.  When
    [createServer] succeeds, the environment held a non-empty key, and the
    first tool call builds its client from that key whatever the
    environment holds by then: the client's requests carry
    [Authorization: Bearer key]. *)
Theorem started_server_keeps_its_key (env : Env) (srv : McpServer) :
  createServer env = Fulfilled srv ->
  exists key this,
    env !! "OPENAI_API_KEY"%string = Some key /\
    key <> EmptyString /\
    (forall env', getClient (server_apiKey srv) env' None
                  = (Fulfilled this, Some this)) /\
    baseURL (client this) = BASE_URL /\
    default_headers (client this) !! "Authorization"%string
    = Some ("Bearer " ++ key)%string.
Proof.
  unfold createServer. cbv zeta.
  destruct (env !! "OPENAI_API_KEY"%string) as [[|c key]|];
    cbn [falsy]; intros Hsrv; try discriminate.
  injection Hsrv as <-. cbn [server_apiKey].
  exists (String c key),
    {| client := {|
         baseURL := BASE_URL;
         default_headers :=
           {[ "Authorization"%string := ("Bearer " ++ String c key)%string;
              "Content-Type"%string := "application/json"%string ]} |} |}.
  split; [reflexivity|]. split; [discriminate|].
  split; [intros env'; reflexivity|]. split; reflexivity.
Qed.

Lemma started_server_keeps_its_key_witness :
  exists key this,
    ({[ "OPENAI_API_KEY"%string := "sk-test"%string ]} : Env)
      !! "OPENAI_API_KEY"%string = Some key /\
    key <> EmptyString /\
    (forall env', getClient (Some "sk-test"%string) env' None
                  = (Fulfilled this, Some this)) /\
    baseURL (client this) = BASE_URL /\
    default_headers (client this) !! "Authorization"%string
    = Some ("Bearer " ++ key)%string.
Proof.
  exact (started_server_keeps_its_key
           {[ "OPENAI_API_KEY"%string := "sk-test"%string ]} _ eq_refl).
Defined.

(* ===================================================================== *)
(** ** The outcome of a call *)
(* ===================================================================== *)

